(** * The pipeline driver of [main.py], embedded and verified

    [main.py] is a single Hydra entry point, [go], that runs up to six
    MLflow steps in a fixed textual order.  The embedding below follows the
    source statement by statement:

    - Python values, [str.split], [in], [str()], [os.path.join] and
      [os.path.abspath] are pure functions;
    - the process state touched by [go] ([os.environ], the working directory,
      the directories and files on disk, MLflow's stack of active runs) is a
      record threaded through a small state-and-exception monad;
    - [mlflow.run] is an external call: its outcome and its effect on the disk
      are given by a [backend] the theorems quantify over, and every call is
      logged together with the world it was issued in. *)

From Stdlib Require Import ZArith String Ascii List Bool Lia.
From Stdlib Require Import Decimal DecimalString DecimalZ DecimalPos DecimalFacts.
From stdpp Require Import gmap strings list.

Import ListNotations.
Local Open Scope string_scope.
Local Open Scope list_scope.

(** ** Python values and built-ins *)

Module Py.

(** The scalars a YAML configuration holds.  A float is carried by the
    text Python prints for it ([repr]), which is also the text [json.dump]
    writes; its binary value is not modelled. *)
Inductive value : Type :=
| VNone
| VBool (b : bool)
| VInt (z : Z)
| VFloat (repr : string)
| VStr (s : string).

Definition is_str (v : value) : bool :=
  match v with VStr _ => true | _ => false end.

(** [str(int)]: decimal digits, with a leading minus sign below zero. *)
Definition str_of_Z (z : Z) : string :=
  NilEmpty.string_of_int (Z.to_int z).

(** [str(v)]. *)
Definition str (v : value) : string :=
  match v with
  | VNone => "None"
  | VBool true => "True"
  | VBool false => "False"
  | VInt z => str_of_Z z
  | VFloat r => r
  | VStr s => s
  end.

(** [s.split(sep)] for a one-character separator: the pieces between the
    separators, empty pieces included; never the empty list. *)
Fixpoint split (sep : ascii) (s : string) : list string :=
  match s with
  | EmptyString => [EmptyString]
  | String c rest =>
      if Ascii.eqb c sep then EmptyString :: split sep rest
      else match split sep rest with
           | [] => [String c EmptyString]
           | piece :: pieces => String c piece :: pieces
           end
  end.

(** [x in l] on a list of strings. *)
Definition mem (x : string) (l : list string) : bool :=
  existsb (String.eqb x) l.

(** [d[k] = v] on a dictionary given by its items in insertion order: an
    existing key keeps its place and takes the new value, a new key goes
    last. *)
Fixpoint dict_set (k : string) (v : value) (d : list (string * value))
    : list (string * value) :=
  match d with
  | [] => [(k, v)]
  | (k', v') :: d' =>
      if String.eqb k k' then (k, v) :: d' else (k', v') :: dict_set k v d'
  end.

(** [dict(pairs)]. *)
Definition dict (pairs : list (string * value)) : list (string * value) :=
  fold_left (fun d kv => dict_set (fst kv) (snd kv) d) pairs [].

(** [posixpath.join(a, b)] for a relative [b]. *)
Definition ends_with_slash (a : string) : bool :=
  match String.get (String.length a - 1) a with
  | Some c => Ascii.eqb c "/"
  | None => false
  end.

Definition path_join (a b : string) : string :=
  if String.eqb a "" then b
  else if ends_with_slash a then a +:+ b
  else a +:+ "/" +:+ b.

End Py.

Export Py(value(..)).

(** ** [json.dump] of a flat dictionary *)

Module Json.

Definition dquote : ascii := "034"%char.
Definition backslash : ascii := "092"%char.

Definition hex_digit (n : N) : ascii :=
  match n with
  | 0 => "0" | 1 => "1" | 2 => "2" | 3 => "3" | 4 => "4" | 5 => "5"
  | 6 => "6" | 7 => "7" | 8 => "8" | 9 => "9" | 10 => "a" | 11 => "b"
  | 12 => "c" | 13 => "d" | 14 => "e" | _ => "f"
  end%N%char.

(** The four lower-case hexadecimal digits of a code point below 65536. *)
Definition hex4 (n : N) : string :=
  String (hex_digit (n / 4096 mod 16))
    (String (hex_digit (n / 256 mod 16))
       (String (hex_digit (n / 16 mod 16))
          (String (hex_digit (n mod 16)) EmptyString)))%N.

(** One character under [ensure_ascii=True]: the quote and the backslash
    are escaped, the five short escapes are used where they exist, any
    other character outside [' '..'~'] becomes [\uXXXX], and the rest is
    copied. *)
Definition escape (c : ascii) : string :=
  let n := N_of_ascii c in
  if (n =? 34)%N then String backslash (String dquote EmptyString)
  else if (n =? 92)%N then String backslash (String backslash EmptyString)
  else if (n =? 10)%N then String backslash "n"
  else if (n =? 13)%N then String backslash "r"
  else if (n =? 9)%N then String backslash "t"
  else if (n =? 8)%N then String backslash "b"
  else if (n =? 12)%N then String backslash "f"
  else if ((n <? 32) || (126 <? n))%N then String backslash (String "u" (hex4 n))
  else String c EmptyString.

Fixpoint escape_all (s : string) : string :=
  match s with
  | EmptyString => EmptyString
  | String c rest => escape c +:+ escape_all rest
  end.

(** [encode_basestring_ascii]. *)
Definition encode_string (s : string) : string :=
  String dquote (escape_all s +:+ String dquote EmptyString).

(** [float.__repr__], except for the three values JSON has no literal
    for. *)
Definition encode_float (r : string) : string :=
  if String.eqb r "nan" then "NaN"
  else if String.eqb r "inf" then "Infinity"
  else if String.eqb r "-inf" then "-Infinity"
  else r.

Definition encode_value (v : value) : string :=
  match v with
  | VNone => "null"
  | VBool true => "true"
  | VBool false => "false"
  | VInt z => Py.str_of_Z z
  | VFloat r => encode_float r
  | VStr s => encode_string s
  end.

Definition encode_item (kv : string * value) : string :=
  encode_string (fst kv) +:+ ": " +:+ encode_value (snd kv).

Fixpoint encode_items (items : list (string * value)) : string :=
  match items with
  | [] => EmptyString
  | [kv] => encode_item kv
  | kv :: rest => encode_item kv +:+ ", " +:+ encode_items rest
  end.

(** [json.dumps(d)] with the default separators, for a dictionary [d]
    with string keys and scalar values, given by its items in insertion
    order. *)
Definition dumps (d : list (string * value)) : string :=
  "{" +:+ encode_items d +:+ "}".

(** What [encode_items] writes after the opening quote of the first key. *)
Definition items_tail (kv : string * value) (rest : list (string * value)) : string :=
  escape_all (fst kv)
  +:+ String dquote
        (": " +:+ encode_value (snd kv)
         +:+ match rest with
             | [] => EmptyString
             | _ :: _ => ", " +:+ encode_items rest
             end).

(** *** [json.load] of a flat document

    The decoder follows [json.decoder]: [scanstring] for strings, the
    number pattern (an optional minus sign, an integer part without
    leading zero, an optional fraction, an optional exponent), the
    constants, and [JSONObject] for the surrounding object.  Characters are
    code points below 256; a unicode escape above that, and nested objects
    and arrays, are outside the model and give [None], which also stands
    for [JSONDecodeError]. *)

Definition is_ws (c : ascii) : bool :=
  let n := N_of_ascii c in
  ((n =? 32) || (n =? 9) || (n =? 10) || (n =? 13))%N.

Fixpoint skip_ws (s : string) : string :=
  match s with
  | String c rest => if is_ws c then skip_ws rest else s
  | EmptyString => EmptyString
  end.

Definition hex_value (c : ascii) : option N :=
  let n := N_of_ascii c in
  if ((48 <=? n) && (n <=? 57))%N then Some (n - 48)%N
  else if ((97 <=? n) && (n <=? 102))%N then Some (n - 87)%N
  else if ((65 <=? n) && (n <=? 70))%N then Some (n - 55)%N
  else None.

Definition decode_uXXXX (h1 h2 h3 h4 : ascii) : option N :=
  match hex_value h1, hex_value h2, hex_value h3, hex_value h4 with
  | Some a, Some b, Some c, Some d => Some (a * 4096 + b * 256 + c * 16 + d)%N
  | _, _, _, _ => None
  end.

(** The character a one-letter escape stands for. *)
Definition unescape (c : ascii) : option ascii :=
  let n := N_of_ascii c in
  if (n =? 34)%N then Some dquote
  else if (n =? 92)%N then Some backslash
  else if (n =? 47)%N then Some "/"%char
  else if (n =? 98)%N then Some "008"%char
  else if (n =? 102)%N then Some "012"%char
  else if (n =? 110)%N then Some "010"%char
  else if (n =? 114)%N then Some "013"%char
  else if (n =? 116)%N then Some "009"%char
  else None.

Definition cons_char (c : ascii) (r : option (string * string))
    : option (string * string) :=
  match r with
  | Some (t, rest) => Some (String c t, rest)
  | None => None
  end.

(** [scanstring] in strict mode, started after the opening quote: the
    decoded text and what follows the closing quote. *)
Fixpoint scanstring (s : string) : option (string * string) :=
  match s with
  | EmptyString => None
  | String c rest =>
      if Ascii.eqb c dquote then Some (EmptyString, rest)
      else if Ascii.eqb c backslash then
        match rest with
        | EmptyString => None
        | String e rest1 =>
            if Ascii.eqb e "u" then
              match rest1 with
              | String h1 (String h2 (String h3 (String h4 rest2))) =>
                  match decode_uXXXX h1 h2 h3 h4 with
                  | Some n =>
                      if (n <? 256)%N then cons_char (ascii_of_N n) (scanstring rest2)
                      else None
                  | None => None
                  end
              | _ => None
              end
            else
              match unescape e with
              | Some ch => cons_char ch (scanstring rest1)
              | None => None
              end
        end
      else if (N_of_ascii c <? 32)%N then None
      else cons_char c (scanstring rest)
  end.

Definition is_digit (c : ascii) : bool :=
  let n := N_of_ascii c in ((48 <=? n) && (n <=? 57))%N.

(** The longest run of digits at the front, and the rest. *)
Fixpoint take_digits (s : string) : string * string :=
  match s with
  | String c rest =>
      if is_digit c then
        let '(ds, r) := take_digits rest in (String c ds, r)
      else (EmptyString, s)
  | EmptyString => (EmptyString, EmptyString)
  end.

(** The groups of the number pattern, each returning what it matched and
    the rest. *)
Definition opt_minus (s : string) : string * string :=
  match s with
  | String c rest => if Ascii.eqb c "-" then ("-", rest) else (EmptyString, s)
  | EmptyString => (EmptyString, s)
  end.

Definition int_part (s : string) : option (string * string) :=
  match s with
  | String c rest =>
      if Ascii.eqb c "0" then Some ("0", rest)
      else if is_digit c then
        let '(ds, r) := take_digits rest in Some (String c ds, r)
      else None
  | EmptyString => None
  end.

Definition frac_part (s : string) : string * string :=
  match s with
  | String c rest =>
      if Ascii.eqb c "." then
        match take_digits rest with
        | (EmptyString, _) => (EmptyString, s)
        | (ds, r) => (String c ds, r)
        end
      else (EmptyString, s)
  | EmptyString => (EmptyString, s)
  end.

Definition opt_sign (s : string) : string * string :=
  match s with
  | String c rest =>
      if Ascii.eqb c "+" || Ascii.eqb c "-" then (String c EmptyString, rest)
      else (EmptyString, s)
  | EmptyString => (EmptyString, s)
  end.

Definition exp_part (s : string) : string * string :=
  match s with
  | String c rest =>
      if Ascii.eqb c "e" || Ascii.eqb c "E" then
        let '(sg, r1) := opt_sign rest in
        match take_digits r1 with
        | (EmptyString, _) => (EmptyString, s)
        | (ds, r) => (String c (sg +:+ ds), r)
        end
      else (EmptyString, s)
  | EmptyString => (EmptyString, s)
  end.

(** [int(text)] for the text of an integer literal. *)
Definition parse_int (text : string) : option Z :=
  option_map Z.of_int (NilEmpty.int_of_string text).

(** The number at the front of [s]: an integer when the literal has
    neither fraction nor exponent, otherwise a float.  A float being
    carried by its text, the float read from a literal that [json.dump]
    wrote is the float that was written. *)
Definition scan_number (s : string) : option (value * string) :=
  let '(sg, s1) := opt_minus s in
  match int_part s1 with
  | None => None
  | Some (ip, s2) =>
      let '(fp, s3) := frac_part s2 in
      let '(ep, s4) := exp_part s3 in
      match fp, ep with
      | EmptyString, EmptyString =>
          match parse_int (sg +:+ ip) with
          | Some z => Some (VInt z, s4)
          | None => None
          end
      | _, _ => Some (VFloat (sg +:+ ip +:+ fp +:+ ep), s4)
      end
  end.

Fixpoint strip_prefix (p s : string) : option string :=
  match p with
  | EmptyString => Some s
  | String a p' =>
      match s with
      | String b s' => if Ascii.eqb a b then strip_prefix p' s' else None
      | EmptyString => None
      end
  end.

(** [scan_once] restricted to scalars. *)
Definition scan_once (s : string) : option (value * string) :=
  match s with
  | EmptyString => None
  | String c rest =>
      if Ascii.eqb c dquote then
        match scanstring rest with
        | Some (t, r) => Some (VStr t, r)
        | None => None
        end
      else if Ascii.eqb c "{" || Ascii.eqb c "[" then None
      else
        match strip_prefix "null" s with
        | Some r => Some (VNone, r)
        | None =>
        match strip_prefix "true" s with
        | Some r => Some (VBool true, r)
        | None =>
        match strip_prefix "false" s with
        | Some r => Some (VBool false, r)
        | None =>
        match scan_number s with
        | Some vr => Some vr
        | None =>
        match strip_prefix "NaN" s with
        | Some r => Some (VFloat "nan", r)
        | None =>
        match strip_prefix "Infinity" s with
        | Some r => Some (VFloat "inf", r)
        | None =>
        match strip_prefix "-Infinity" s with
        | Some r => Some (VFloat "-inf", r)
        | None => None
        end end end end end end end
  end.

(** The loop of [JSONObject], entered after the opening quote of a key;
    [fuel] bounds the number of pairs. *)
Fixpoint scan_pairs (fuel : nat) (s : string)
    : option (list (string * value) * string) :=
  match fuel with
  | O => None
  | S fuel' =>
      match scanstring s with
      | None => None
      | Some (key, s1) =>
          match skip_ws s1 with
          | String c s2 =>
              if negb (Ascii.eqb c ":") then None
              else
                match scan_once (skip_ws s2) with
                | None => None
                | Some (v, s3) =>
                    match skip_ws s3 with
                    | String d s4 =>
                        if Ascii.eqb d "}" then Some ([(key, v)], s4)
                        else if Ascii.eqb d "," then
                          match skip_ws s4 with
                          | String q s5 =>
                              if Ascii.eqb q dquote then
                                match scan_pairs fuel' s5 with
                                | Some (pairs, s6) => Some ((key, v) :: pairs, s6)
                                | None => None
                                end
                              else None
                          | EmptyString => None
                          end
                        else None
                    | EmptyString => None
                    end
                end
          | EmptyString => None
          end
      end
  end.

(** [JSONObject], entered after the opening brace. *)
Definition scan_object (s : string) : option (list (string * value) * string) :=
  match skip_ws s with
  | String c s1 =>
      if Ascii.eqb c "}" then Some ([], s1)
      else if Ascii.eqb c dquote then scan_pairs (String.length s1) s1
      else None
  | EmptyString => None
  end.

(** [json.loads(s)] for a document that is one flat object. *)
Definition loads (s : string) : option (list (string * value)) :=
  match skip_ws s with
  | String c s1 =>
      if Ascii.eqb c "{" then
        match scan_object s1 with
        | Some (pairs, s2) =>
            match skip_ws s2 with
            | EmptyString => Some (Py.dict pairs)
            | String _ _ => None
            end
        | None => None
        end
      else None
  | EmptyString => None
  end.

(** Text that cannot continue a number: the end of the input, or a
    character that is no digit, point, exponent mark or sign. *)
Definition is_number_char (c : ascii) : bool :=
  is_digit c || Ascii.eqb c "." || Ascii.eqb c "e" || Ascii.eqb c "E"
  || Ascii.eqb c "+" || Ascii.eqb c "-".

Definition ends_number (rest : string) : bool :=
  match rest with
  | EmptyString => true
  | String c _ => negb (is_number_char c)
  end.

Definition extend {A} (rest : string) (r : A * string) : A * string :=
  (fst r, snd r +:+ rest).

(** A float that [json.dump] writes as a number: its text is one whole
    literal with a fraction or an exponent (so neither [nan] nor an
    infinity). *)
Definition is_json_value (v : value) : bool :=
  match v with
  | VFloat r =>
      match scan_number r with
      | Some (VFloat r', EmptyString) => String.eqb r r'
      | _ => false
      end
  | _ => true
  end.

End Json.

(** ** The configuration document

    Hydra hands [go] a nested mapping; the fields below are the ones [go]
    reads, section by section.  The four [main] fields are used as strings
    (environment values, the tested [steps] string, an f-string); the other
    scalars are whatever the YAML holds. *)

Record MainSection := {
  project_name : string;
  experiment_name : string;
  steps : string;
  components_repository : string
}.

Record EtlSection := {
  sample : value;
  min_price : value;
  max_price : value
}.

Record DataCheckSection := {
  kl_threshold : value
}.

Record ModelingSection := {
  test_size : value;
  val_size : value;
  random_seed : value;
  stratify_by : value;
  max_tfidf_features : value;
  random_forest : list (string * value)
}.

Record Config := {
  main : MainSection;
  etl : EtlSection;
  data_check : DataCheckSection;
  modeling : ModelingSection
}.

(** ** The world [go] runs in *)

(** What one [mlflow.run] call is given. *)
Record call := Call {
  uri : string;
  entry_point : string;
  version : option string;
  env_manager : string;
  parameters : list (string * value)
}.

Record world := World {
  environ : gmap string string;     (* os.environ *)
  cwd : string;                     (* os.getcwd() *)
  original_cwd : string;            (* hydra.utils.get_original_cwd() *)
  mkdtemp_name : string;            (* the directory mkdtemp creates next *)
  dirs : gset string;               (* directories on disk *)
  files : gmap string string;       (* regular files on disk, with content *)
  active_runs : list string         (* open MLflow runs, innermost first *)
}.

(** One entry of the log: which block of [go] issued the call, the call,
    the world at the moment of the call, and whether the step succeeded. *)
Record event := Event {
  ev_step : string;
  ev_call : call;
  ev_world : world;
  ev_ok : bool
}.

Record state := State {
  st_world : world;
  st_trace : list event
}.

Inductive error : Type :=
| StepExecutionError (step : string).

Inductive result (A : Type) : Type :=
| Ok (a : A)
| Raise (e : error).
Arguments Ok {A} a.
Arguments Raise {A} e.

(** Computations that read and write the state and may raise. *)
Definition M (A : Type) : Type := state -> result A * state.

Definition ret {A} (a : A) : M A := fun st => (Ok a, st).

Definition bind {A B} (m : M A) (k : A -> M B) : M B :=
  fun st =>
    match m st with
    | (Ok a, st') => k a st'
    | (Raise e, st') => (Raise e, st')
    end.

Notation "x <- m ;; k" := (bind m (fun x => k))
  (at level 100, m at next level, right associativity).
Notation "m ;; k" := (bind m (fun _ => k))
  (at level 100, right associativity).

(** [try: body finally: cleanup], the shape of a [with] block: the cleanup
    runs on both exits and the body's result is passed on. *)
Definition finally {A} (body : M A) (cleanup : state -> state) : M A :=
  fun st => let '(r, st') := body st in (r, cleanup st').

Definition modify (f : world -> world) : M unit :=
  fun st => (Ok tt, State (f (st_world st)) (st_trace st)).

Definition get_world : M world := fun st => (Ok (st_world st), st).

Definition on_world (f : world -> world) (st : state) : state :=
  State (f (st_world st)) (st_trace st).

Definition set_environ (k v : string) (w : world) : world :=
  World (<[k := v]> (environ w)) (cwd w) (original_cwd w) (mkdtemp_name w)
        (dirs w) (files w) (active_runs w).

Definition set_disk (d : gset string) (f : gmap string string) (w : world) : world :=
  World (environ w) (cwd w) (original_cwd w) (mkdtemp_name w) d f (active_runs w).

Definition set_active_runs (r : list string) (w : world) : world :=
  World (environ w) (cwd w) (original_cwd w) (mkdtemp_name w)
        (dirs w) (files w) r.

(** [p] is the directory [d] itself or lies below it. *)
Definition is_under (d p : string) : bool :=
  String.eqb p d || String.prefix (d +:+ "/") p.

(** [shutil.rmtree(d)]: the directory and everything below it goes. *)
Definition rmtree (d : string) (w : world) : world :=
  set_disk (filter (fun p => is_under d p = false) (dirs w))
           (filter (fun pc => is_under d (fst pc) = false) (files w)) w.

Definition mkdir (d : string) (w : world) : world :=
  set_disk ({[ d ]} ∪ dirs w) (files w) w.

(** [open(path, "w+")] followed by one write: the file holds exactly the
    written text, whatever it held before. *)
Definition write_file (path content : string) : M unit :=
  modify (fun w => set_disk (dirs w) (<[path := content]> (files w)) w).

(** [os.path.abspath(p)] for a relative [p]: [p] joined to the working
    directory, which [os.getcwd()] returns in normal form. *)
Definition abspath (p : string) : M string :=
  w <- get_world ;; ret (Py.path_join (cwd w) p).

Definition get_original_cwd : M string :=
  w <- get_world ;; ret (original_cwd w).

(** [with tempfile.TemporaryDirectory() as tmp_dir: body]. *)
Definition with_TemporaryDirectory {A} (body : string -> M A) : M A :=
  fun st =>
    let tmp_dir := mkdtemp_name (st_world st) in
    finally (body tmp_dir) (on_world (rmtree tmp_dir))
            (on_world (mkdir tmp_dir) st).

Definition push_run (run_name : string) (w : world) : world :=
  set_active_runs (run_name :: active_runs w) w.

Definition pop_run (w : world) : world :=
  set_active_runs (tl (active_runs w)) w.

(** [with mlflow.start_run(run_name=name): body]: the run is the active one
    inside the block and is ended on both exits.  Only the stack of open
    runs is modelled.  What MLflow records in its tracking store is not
    part of [dirs] and [files], which stand for the disk apart from that
    store; and the process is taken to start without [MLFLOW_RUN_ID] in
    its environment, the variable that would make the first [start_run]
    resume an existing run instead of opening one under [run_name]. *)
Definition with_start_run {A} (run_name : string) (body : M A) : M A :=
  fun st => finally body (on_world pop_run) (on_world (push_run run_name) st).

Definition when (b : bool) (body : M unit) : M unit :=
  if b then body else ret tt.

(** ** The steps and the driver *)

Definition _steps : list string :=
  [ "download";
    "basic_cleaning";
    "data_check";
    "data_split";
    "train_random_forest"
    (* "test_regression_model" is left out on purpose *) ].

Section Driver.

(** The external step runner behind [mlflow.run]: for a call issued in a
    given world, whether the step succeeds and what the disk looks like
    when it returns. *)
Variable backend : call -> world -> bool * (gset string * gmap string string).

(** [mlflow.run(...)], issued from the block of step [step]. *)
Definition mlflow_run (step : string) (c : call) : M unit :=
  fun st =>
    let w := st_world st in
    let '(ok, (d, f)) := backend c w in
    let st' := State (set_disk d f w) (st_trace st ++ [Event step c w ok]) in
    if ok then (Ok tt, st') else (Raise (StepExecutionError step), st').

Definition active_steps_of (steps_par : string) : list string :=
  if negb (String.eqb steps_par "all") then Py.split "," steps_par else _steps.

Definition download (config : Config) : M unit :=
  mlflow_run "download"
    (Call (components_repository (main config) +:+ "/get_data")
          "main" (Some "main") "conda"
          [ ("sample", sample (etl config));
            ("artifact_name", VStr "sample.csv");
            ("artifact_type", VStr "raw_data");
            ("artifact_description", VStr "Raw file as downloaded") ]).

Definition basic_cleaning (config : Config) : M unit :=
  with_start_run "basic_cleaning"
    (root <- get_original_cwd ;;
     mlflow_run "basic_cleaning"
       (Call (Py.path_join (Py.path_join root "src") "basic_cleaning")
             "main" None "local"
             [ ("input_artifact", VStr "sample.csv:latest");
               ("output_artifact", VStr "clean_sample.csv");
               ("output_type", VStr "clean_data");
               ("output_description", VStr "Data after basic cleaning");
               ("min_price", min_price (etl config));
               ("max_price", max_price (etl config)) ])).

Definition data_check_step (config : Config) : M unit :=
  with_start_run "data_check"
    (root <- get_original_cwd ;;
     mlflow_run "data_check"
       (Call (Py.path_join (Py.path_join root "src") "data_check")
             "main" None "local"
             [ ("csv", VStr "clean_sample.csv:latest");
               ("ref", VStr "clean_sample.csv:reference");
               ("kl_threshold", kl_threshold (data_check config));
               ("min_price", min_price (etl config));
               ("max_price", max_price (etl config)) ])).

Definition data_split (config : Config) : M unit :=
  with_start_run "data_split"
    (mlflow_run "data_split"
       (Call (components_repository (main config) +:+ "/train_val_test_split")
             "main" (Some "main") "conda"
             [ ("input", VStr "clean_sample.csv:latest");
               ("test_size", VStr (Py.str (test_size (modeling config))));
               ("random_seed", VStr (Py.str (random_seed (modeling config))));
               ("stratify_by", stratify_by (modeling config)) ])).

Definition train_random_forest (config : Config) : M unit :=
  rf_config_path <- abspath "rf_config.json" ;;
  write_file rf_config_path
    (Json.dumps (Py.dict (random_forest (modeling config)))) ;;
  with_start_run "train_random_forest"
    (root <- get_original_cwd ;;
     mlflow_run "train_random_forest"
       (Call (Py.path_join (Py.path_join root "src") "train_random_forest")
             "main" None "local"
             [ ("trainval_artifact", VStr "trainval_data.csv:latest");
               ("val_size", VStr (Py.str (val_size (modeling config))));
               ("random_seed", VStr (Py.str (random_seed (modeling config))));
               ("stratify_by", stratify_by (modeling config));
               ("rf_config", VStr rf_config_path);
               ("max_tfidf_features",
                VStr (Py.str (max_tfidf_features (modeling config))));
               ("output_artifact", VStr "random_forest_export") ])).

Definition test_regression_model (config : Config) : M unit :=
  with_start_run "test_regression_model"
    (mlflow_run "test_regression_model"
       (Call (components_repository (main config) +:+ "/test_regression_model")
             "main" (Some "main") "conda"
             [ ("mlflow_model", VStr "random_forest_export:prod");
               ("test_dataset", VStr "test_data.csv:latest") ])).

(** The body of the [with] block: six guarded blocks, in the order of the
    source text. *)
Definition run_steps (config : Config) (active_steps : list string) : M unit :=
  when (Py.mem "download" active_steps) (download config) ;;
  when (Py.mem "basic_cleaning" active_steps) (basic_cleaning config) ;;
  when (Py.mem "data_check" active_steps) (data_check_step config) ;;
  when (Py.mem "data_split" active_steps) (data_split config) ;;
  when (Py.mem "train_random_forest" active_steps) (train_random_forest config) ;;
  when (Py.mem "test_regression_model" active_steps) (test_regression_model config).

Definition go (config : Config) : M unit :=
  modify (set_environ "WANDB_PROJECT" (project_name (main config))) ;;
  modify (set_environ "WANDB_RUN_GROUP" (experiment_name (main config))) ;;
  let steps_par := steps (main config) in
  let active_steps := active_steps_of steps_par in
  with_TemporaryDirectory (fun tmp_dir => run_steps config active_steps).

(** [go] is the entry point of a fresh process: no MLflow run is open and
    nothing has been logged. *)
Definition boot (w : world) : state :=
  State (set_active_runs [] w) [].

Definition run (config : Config) (w : world) : result unit * state :=
  go config (boot w).

Definition executed (config : Config) (w : world) : list string :=
  map ev_step (st_trace (snd (run config w))).

(** *** The six blocks in one shape

    Every block of [go] prepares the world (only the training block does:
    it writes the side file), possibly opens a run, issues one call and
    ends the run.  [block] records these four ingredients and [run_block]
    is the common shape; the lemmas [*_block_eq] below show each source
    block is an instance. *)
Record block := Block {
  b_name : string;
  b_wrapped : bool;
  b_prepare : world -> world;
  b_call : world -> call
}.

Definition call_world (b : block) (w : world) : world :=
  let w1 := b_prepare b w in
  if b_wrapped b then push_run (b_name b) w1 else w1.

Definition after_call (b : block) (w : world)
    (df : gset string * gmap string string) : world :=
  let w2 := set_disk (fst df) (snd df) w in
  if b_wrapped b then pop_run w2 else w2.

Definition outcome (name : string) (ok : bool) : result unit :=
  if ok then Ok tt else Raise (StepExecutionError name).

Definition run_block (b : block) : M unit :=
  fun st =>
    let w := st_world st in
    let c := b_call b w in
    let wc := call_world b w in
    let r := backend c wc in
    (outcome (b_name b) (fst r),
     State (after_call b wc (snd r))
           (st_trace st ++ [Event (b_name b) c wc (fst r)])).

Fixpoint run_blocks (bs : list block) (active_steps : list string) : M unit :=
  match bs with
  | [] => ret tt
  | b :: rest =>
      when (Py.mem (b_name b) active_steps) (run_block b) ;;
      run_blocks rest active_steps
  end.

Definition rf_config_file (w : world) : string :=
  Py.path_join (cwd w) "rf_config.json".

Definition local_uri (w : world) (name : string) : string :=
  Py.path_join (Py.path_join (original_cwd w) "src") name.

Definition download_block (config : Config) : block :=
  Block "download" false (fun w => w)
    (fun _ =>
       Call (components_repository (main config) +:+ "/get_data")
            "main" (Some "main") "conda"
            [ ("sample", sample (etl config));
              ("artifact_name", VStr "sample.csv");
              ("artifact_type", VStr "raw_data");
              ("artifact_description", VStr "Raw file as downloaded") ]).

Definition basic_cleaning_block (config : Config) : block :=
  Block "basic_cleaning" true (fun w => w)
    (fun w =>
       Call (local_uri w "basic_cleaning") "main" None "local"
            [ ("input_artifact", VStr "sample.csv:latest");
              ("output_artifact", VStr "clean_sample.csv");
              ("output_type", VStr "clean_data");
              ("output_description", VStr "Data after basic cleaning");
              ("min_price", min_price (etl config));
              ("max_price", max_price (etl config)) ]).

Definition data_check_block (config : Config) : block :=
  Block "data_check" true (fun w => w)
    (fun w =>
       Call (local_uri w "data_check") "main" None "local"
            [ ("csv", VStr "clean_sample.csv:latest");
              ("ref", VStr "clean_sample.csv:reference");
              ("kl_threshold", kl_threshold (data_check config));
              ("min_price", min_price (etl config));
              ("max_price", max_price (etl config)) ]).

Definition data_split_block (config : Config) : block :=
  Block "data_split" true (fun w => w)
    (fun _ =>
       Call (components_repository (main config) +:+ "/train_val_test_split")
            "main" (Some "main") "conda"
            [ ("input", VStr "clean_sample.csv:latest");
              ("test_size", VStr (Py.str (test_size (modeling config))));
              ("random_seed", VStr (Py.str (random_seed (modeling config))));
              ("stratify_by", stratify_by (modeling config)) ]).

Definition train_random_forest_block (config : Config) : block :=
  Block "train_random_forest" true
    (fun w =>
       set_disk (dirs w)
                (<[rf_config_file w :=
                   Json.dumps (Py.dict (random_forest (modeling config)))]>
                   (files w)) w)
    (fun w =>
       Call (local_uri w "train_random_forest") "main" None "local"
            [ ("trainval_artifact", VStr "trainval_data.csv:latest");
              ("val_size", VStr (Py.str (val_size (modeling config))));
              ("random_seed", VStr (Py.str (random_seed (modeling config))));
              ("stratify_by", stratify_by (modeling config));
              ("rf_config", VStr (rf_config_file w));
              ("max_tfidf_features",
               VStr (Py.str (max_tfidf_features (modeling config))));
              ("output_artifact", VStr "random_forest_export") ]).

Definition test_regression_model_block (config : Config) : block :=
  Block "test_regression_model" true (fun w => w)
    (fun _ =>
       Call (components_repository (main config) +:+ "/test_regression_model")
            "main" (Some "main") "conda"
            [ ("mlflow_model", VStr "random_forest_export:prod");
              ("test_dataset", VStr "test_data.csv:latest") ]).

Definition blocks (config : Config) : list block :=
  [ download_block config;
    basic_cleaning_block config;
    data_check_block config;
    data_split_block config;
    train_random_forest_block config;
    test_regression_model_block config ].

(** *** Big-step reading of the block sequence

    [steps_from bs active w evs r w']: started in world [w], the blocks
    [bs] filtered by [active] issue the calls [evs], end with result [r]
    and leave the world [w']. *)
Inductive steps_from (active_steps : list string) :
    list block -> world -> list event -> result unit -> world -> Prop :=
| steps_done w :
    steps_from active_steps [] w [] (Ok tt) w
| steps_skip b bs w evs r w' :
    Py.mem (b_name b) active_steps = false ->
    steps_from active_steps bs w evs r w' ->
    steps_from active_steps (b :: bs) w evs r w'
| steps_next b bs w df evs r w' :
    Py.mem (b_name b) active_steps = true ->
    backend (b_call b w) (call_world b w) = (true, df) ->
    steps_from active_steps bs (after_call b (call_world b w) df) evs r w' ->
    steps_from active_steps (b :: bs) w
      (Event (b_name b) (b_call b w) (call_world b w) true :: evs) r w'
| steps_fail b bs w df :
    Py.mem (b_name b) active_steps = true ->
    backend (b_call b w) (call_world b w) = (false, df) ->
    steps_from active_steps (b :: bs) w
      [Event (b_name b) (b_call b w) (call_world b w) false]
      (Raise (StepExecutionError (b_name b)))
      (after_call b (call_world b w) df).

End Driver.

(** The canonical sequence: the six blocks of [go] in textual order. *)
Definition canonical : list string := _steps ++ ["test_regression_model"].

(** The blocks whose guard [name in active_steps] holds, in textual order:
    what a request selects. *)
Definition guarded (active_steps : list string) (names : list string) : list string :=
  List.filter (fun name => Py.mem name active_steps) names.

Definition selection (steps_par : string) : list string :=
  guarded (active_steps_of steps_par) canonical.

(** The world in which the first block starts: the two environment
    variables are set and the temporary directory exists. *)
Definition setup (config : Config) (w : world) : world :=
  mkdir (mkdtemp_name w)
    (set_environ "WANDB_RUN_GROUP" (experiment_name (main config))
       (set_environ "WANDB_PROJECT" (project_name (main config))
          (set_active_runs [] w))).




(** ** A concrete configuration, world and step runners

    Used to evaluate the driver on explicit inputs. *)

Module Sample.

Definition config (steps_par : string) : Config :=
  {| main := {| project_name := "nyc_airbnb";
                experiment_name := "development";
                steps := steps_par;
                components_repository := "https://example.org/components" |};
     etl := {| sample := VStr "sample1.csv";
               min_price := VInt 10;
               max_price := VInt 350 |};
     data_check := {| kl_threshold := VFloat "0.2" |};
     modeling := {| test_size := VFloat "0.2";
                    val_size := VFloat "0.2";
                    random_seed := VInt 42;
                    stratify_by := VStr "neighbourhood_group";
                    max_tfidf_features := VInt 5;
                    random_forest :=
                      [ ("n_estimators", VInt 100);
                        ("max_depth", VInt 15);
                        ("criterion", VStr "squared_error");
                        ("max_features", VFloat "0.5");
                        ("oob_score", VBool true);
                        ("n_jobs", VInt (-1)) ] |} |}.

(** Hydra has moved the process to its output directory; [/tmp/tmpa1b2c3]
    is the name [mkdtemp] will pick. *)
Definition w0 : world :=
  World ∅ "/work/outputs" "/work" "/tmp/tmpa1b2c3"
        {[ "/work"; "/work/outputs"; "/tmp" ]} ∅ [].

(** Every step succeeds and leaves the disk alone. *)
Definition all_ok (c : call) (w : world) : bool * (gset string * gmap string string) :=
  (true, (dirs w, files w)).

(** The step at [failing] fails, the others succeed. *)
Definition fail_at (failing : string) (c : call) (w : world)
    : bool * (gset string * gmap string string) :=
  (negb (String.eqb (uri c) failing), (dirs w, files w)).

(** Every step succeeds and drops a log file into the temporary
    directory. *)
Definition logging (c : call) (w : world) : bool * (gset string * gmap string string) :=
  (true, (dirs w, <[mkdtemp_name w +:+ "/step.log" := "done"]> (files w))).

End Sample.

(** ** Notions used to describe a run *)

(** Printable ASCII: the characters from the space to the tilde. *)
Definition printable_char (c : ascii) : bool :=
  let n := N_of_ascii c in ((32 <=? n) && (n <=? 126))%N.

Fixpoint printable (s : string) : bool :=
  match s with
  | EmptyString => true
  | String c rest => printable_char c && printable rest
  end.

(** * Properties *)

(** ** Strings *)

Lemma append_cons c s t : String c s +:+ t = String c (s +:+ t).
Proof. reflexivity. Qed.

Lemma append_nil_l t : "" +:+ t = t.
Proof. reflexivity. Qed.

Lemma append_nil_r s : s +:+ "" = s.
Proof. induction s as [| c s IH]; [reflexivity |]. now rewrite append_cons, IH. Qed.

Lemma append_assoc s t u : (s +:+ t) +:+ u = s +:+ (t +:+ u).
Proof.
  induction s as [| c s IH]; [reflexivity |]. now rewrite !append_cons, IH.
Qed.

Lemma length_append s t :
  String.length (s +:+ t) = (String.length s + String.length t)%nat.
Proof.
  induction s as [| c s IH]; [reflexivity |].
  rewrite append_cons. cbn [String.length]. now rewrite IH.
Qed.

Ltac norm_append :=
  repeat (rewrite append_cons || rewrite append_nil_l || rewrite append_assoc).

(** ** [json.load] undoes [json.dump] *)

(** Reading back one escaped character gives the character. *)
Lemma scanstring_escape c t :
  Json.scanstring (Json.escape c +:+ t)
  = Json.cons_char c (Json.scanstring t).
Proof.
  destruct c as [[] [] [] [] [] [] [] []]; reflexivity.
Qed.

Lemma scanstring_escape_all s rest :
  Json.scanstring (Json.escape_all s +:+ String Json.dquote rest) = Some (s, rest).
Proof.
  induction s as [| c s IH]; [reflexivity |].
  cbn [Json.escape_all]. rewrite append_assoc, scanstring_escape, IH. reflexivity.
Qed.

(** Each group of the number pattern reads the same from [s] followed by
    text that cannot continue a number as from [s] alone. *)
Section NumberGroups.

Variable rest : string.
Hypothesis Hrest : Json.ends_number rest = true.

Lemma rest_cases :
  rest = "" \/
  exists c r,
    rest = String c r
    /\ Json.is_digit c = false /\ Ascii.eqb c "." = false /\ Ascii.eqb c "e" = false
    /\ Ascii.eqb c "E" = false /\ Ascii.eqb c "+" = false /\ Ascii.eqb c "-" = false.
Proof.
  revert Hrest. generalize rest. intros [| c r] H; [now left | right].
  exists c, r. cbn in H. unfold Json.is_number_char in H.
  apply negb_true_iff in H. rewrite !orb_false_iff in H. tauto.
Qed.

Lemma take_digits_app s :
  Json.take_digits (s +:+ rest) = Json.extend rest (Json.take_digits s).
Proof.
  induction s as [| a s IH].
  - rewrite append_nil_l.
    destruct rest_cases as [-> | (c & r & -> & Hd & _)]; [reflexivity |].
    cbn [Json.take_digits]. now rewrite Hd.
  - rewrite append_cons. cbn [Json.take_digits]. destruct (Json.is_digit a).
    + rewrite IH. destruct (Json.take_digits s). reflexivity.
    + reflexivity.
Qed.

Lemma opt_minus_app s :
  Json.opt_minus (s +:+ rest) = Json.extend rest (Json.opt_minus s).
Proof.
  destruct s as [| a s].
  - rewrite append_nil_l.
    destruct rest_cases as [-> | (c & r & -> &_&_&_&_&_& Hm)]; [reflexivity |].
    cbn [Json.opt_minus]. now rewrite Hm.
  - rewrite append_cons. cbn [Json.opt_minus]. now destruct (Ascii.eqb a "-").
Qed.

Lemma opt_sign_app s :
  Json.opt_sign (s +:+ rest) = Json.extend rest (Json.opt_sign s).
Proof.
  destruct s as [| a s].
  - rewrite append_nil_l.
    destruct rest_cases as [-> | (c & r & -> &_&_&_&_& Hp & Hm)]; [reflexivity |].
    cbn [Json.opt_sign]. now rewrite Hp, Hm.
  - rewrite append_cons. cbn [Json.opt_sign].
    now destruct (Ascii.eqb a "+" || Ascii.eqb a "-").
Qed.

Lemma int_part_app s :
  Json.int_part (s +:+ rest) = option_map (Json.extend rest) (Json.int_part s).
Proof.
  destruct s as [| a s].
  - rewrite append_nil_l.
    destruct rest_cases as [-> | (c & r & -> & Hd &_)]; [reflexivity |].
    cbn [Json.int_part]. rewrite Hd.
    destruct (Ascii.eqb c "0") eqn:E0; [| reflexivity].
    apply Ascii.eqb_eq in E0. subst c. discriminate Hd.
  - rewrite append_cons. cbn [Json.int_part].
    destruct (Ascii.eqb a "0"); [reflexivity |].
    destruct (Json.is_digit a); [| reflexivity].
    rewrite take_digits_app. destruct (Json.take_digits s). reflexivity.
Qed.

Lemma frac_part_app s :
  Json.frac_part (s +:+ rest) = Json.extend rest (Json.frac_part s).
Proof.
  destruct s as [| a s].
  - rewrite append_nil_l.
    destruct rest_cases as [-> | (c & r & -> &_& Hp &_)]; [reflexivity |].
    cbn [Json.frac_part]. now rewrite Hp.
  - rewrite append_cons. cbn [Json.frac_part].
    destruct (Ascii.eqb a "."); [| reflexivity].
    rewrite take_digits_app. destruct (Json.take_digits s) as [[| d ds] r];
      reflexivity.
Qed.

Lemma exp_part_app s :
  Json.exp_part (s +:+ rest) = Json.extend rest (Json.exp_part s).
Proof.
  destruct s as [| a s].
  - rewrite append_nil_l.
    destruct rest_cases as [-> | (c & r & -> &_&_& He & HE &_)]; [reflexivity |].
    cbn [Json.exp_part]. now rewrite He, HE.
  - rewrite append_cons. cbn [Json.exp_part].
    destruct (Ascii.eqb a "e" || Ascii.eqb a "E"); [| reflexivity].
    rewrite opt_sign_app. destruct (Json.opt_sign s) as [sg r1].
    unfold Json.extend at 1. cbn [fst snd].
    rewrite take_digits_app. destruct (Json.take_digits r1) as [[| d ds] r];
      reflexivity.
Qed.

Lemma scan_number_app s :
  Json.scan_number (s +:+ rest) = option_map (Json.extend rest) (Json.scan_number s).
Proof.
  unfold Json.scan_number.
  rewrite opt_minus_app. destruct (Json.opt_minus s) as [sg s1].
  unfold Json.extend at 1. cbn [fst snd].
  rewrite int_part_app. destruct (Json.int_part s1) as [[ip s2] |]; [| reflexivity].
  cbn [option_map]. unfold Json.extend at 1. cbn [fst snd].
  rewrite frac_part_app. destruct (Json.frac_part s2) as [fp s3].
  unfold Json.extend at 1. cbn [fst snd].
  rewrite exp_part_app. destruct (Json.exp_part s3) as [ep s4].
  unfold Json.extend at 1. cbn [fst snd].
  destruct fp; [destruct ep; [destruct (Json.parse_int (sg +:+ ip)) |] |];
    reflexivity.
Qed.

End NumberGroups.

(** *** Integers *)

Lemma take_digits_uint d :
  Json.take_digits (NilEmpty.string_of_uint d) = (NilEmpty.string_of_uint d, "").
Proof.
  induction d as [| d IH | d IH | d IH | d IH | d IH | d IH | d IH | d IH | d IH | d IH];
    [reflexivity | ..];
    cbn [NilEmpty.string_of_uint Json.take_digits]; rewrite IH; reflexivity.
Qed.

Lemma nzhead_not_D0 d d' : Decimal.nzhead d <> D0 d'.
Proof. induction d; cbn; try discriminate. exact IHd. Qed.

(** The digits of a positive number do not start with a zero. *)
Lemma to_uint_head p :
  match Pos.to_uint p with
  | Nil | D0 _ => False
  | _ => True
  end.
Proof.
  pose proof (DecimalPos.Unsigned.to_of (Pos.to_uint p)) as Hnorm.
  rewrite DecimalPos.Unsigned.of_to in Hnorm. cbn [N.to_uint] in Hnorm.
  pose proof (DecimalPos.Unsigned.to_uint_nonzero p) as Hnz.
  destruct (Pos.to_uint p) as [| d | | | | | | | | |] eqn:E; try exact I.
  - discriminate Hnorm.
  - unfold Decimal.unorm in Hnorm. cbn [Decimal.nzhead] in Hnorm.
    destruct (Decimal.nzhead d) eqn:En; try discriminate Hnorm.
    + exact (Hnz Hnorm).
    + exact (nzhead_not_D0 _ _ En).
Qed.

Lemma parse_int_str z : Json.parse_int (Py.str_of_Z z) = Some z.
Proof.
  unfold Json.parse_int, Py.str_of_Z.
  rewrite NilEmpty.isi. cbn [option_map]. now rewrite DecimalZ.of_to.
Qed.

(** A number literal that starts with a non-zero digit and goes on with
    digits only. *)
Lemma scan_number_digits sg c ds z :
  (sg = "" \/ sg = "-") ->
  Json.is_digit c = true -> Ascii.eqb c "0" = false ->
  Json.take_digits ds = (ds, "") ->
  Json.parse_int (sg +:+ String c ds) = Some z ->
  Json.scan_number (sg +:+ String c ds) = Some (VInt z, "").
Proof.
  intros Hsg Hd H0 Hds Hz.
  assert (Ascii.eqb c "-" = false) as Hm.
  { destruct (Ascii.eqb c "-") eqn:E; [| reflexivity].
    apply Ascii.eqb_eq in E. subst c. discriminate Hd. }
  unfold Json.scan_number.
  assert (Json.opt_minus (sg +:+ String c ds) = (sg, String c ds)) as ->.
  { destruct Hsg as [-> | ->]; norm_append; cbn [Json.opt_minus];
      [now rewrite Hm | reflexivity]. }
  cbn [Json.int_part]. rewrite H0, Hd, Hds. cbn.
  now rewrite Hz.
Qed.

Lemma scan_number_int z : Json.scan_number (Py.str_of_Z z) = Some (VInt z, "").
Proof.
  pose proof (parse_int_str z) as Hz.
  destruct z as [| p | p]; [reflexivity | |];
    unfold Py.str_of_Z in *; cbn [Z.to_int NilEmpty.string_of_int] in *;
    pose proof (to_uint_head p) as Hh;
    pose proof (take_digits_uint (Pos.to_uint p)) as Hds;
    destruct (Pos.to_uint p) as [| d | d | d | d | d | d | d | d | d | d];
    try contradiction;
    cbn [NilEmpty.string_of_uint] in *.
  all: match goal with
       | |- Json.scan_number (String "-" (String ?c ?ds)) = _ =>
           exact (scan_number_digits "-" c ds _ (or_intror eq_refl)
                    eq_refl eq_refl (take_digits_uint _) Hz)
       | |- Json.scan_number (String ?c ?ds) = _ =>
           exact (scan_number_digits "" c ds _ (or_introl eq_refl)
                    eq_refl eq_refl (take_digits_uint _) Hz)
       end.
Qed.

(** *** Scalars *)

Lemma scan_once_number s vr :
  Json.scan_number s = Some vr -> Json.scan_once s = Some vr.
Proof.
  destruct s as [| c s]; [discriminate |]. intros H.
  destruct c as [[] [] [] [] [] [] [] []];
    try (exfalso; vm_compute in H; discriminate H);
    unfold Json.scan_once; rewrite H; reflexivity.
Qed.

Lemma scan_once_not_ws s vr :
  Json.scan_once s = Some vr -> Json.skip_ws s = s.
Proof.
  destruct s as [| c s]; [discriminate |]. intros H.
  cbn [Json.skip_ws]. destruct (Json.is_ws c) eqn:E; [exfalso | reflexivity].
  destruct c as [[] [] [] [] [] [] [] []];
    try (vm_compute in E; discriminate E);
    vm_compute in H; discriminate H.
Qed.

Lemma json_float_number r :
  Json.is_json_value (VFloat r) = true ->
  Json.scan_number r = Some (VFloat r, "") /\ Json.encode_float r = r.
Proof.
  cbn [Json.is_json_value]. intros H.
  assert (Json.scan_number r = Some (VFloat r, "")) as Hn.
  { destruct (Json.scan_number r) as [[[] [|]] |]; try discriminate H.
    apply String.eqb_eq in H. now subst. }
  split; [exact Hn |].
  unfold Json.encode_float.
  destruct (String.eqb_spec r "nan") as [-> | _]; [discriminate Hn |].
  destruct (String.eqb_spec r "inf") as [-> | _]; [discriminate Hn |].
  destruct (String.eqb_spec r "-inf") as [-> | _]; [discriminate Hn |].
  reflexivity.
Qed.

(** Reading back one written value gives the value and stops where the
    value ends. *)
Lemma scan_once_value v rest :
  Json.is_json_value v = true ->
  Json.ends_number rest = true ->
  Json.scan_once (Json.encode_value v +:+ rest) = Some (v, rest).
Proof.
  intros Hv Hrest. destruct v as [| [] | z | r | t]; try reflexivity.
  - apply scan_once_number. cbn [Json.encode_value].
    now rewrite (scan_number_app rest Hrest), scan_number_int.
  - apply scan_once_number. cbn [Json.encode_value].
    destruct (json_float_number r Hv) as [Hn ->].
    now rewrite (scan_number_app rest Hrest), Hn.
  - cbn [Json.encode_value]. unfold Json.encode_string. norm_append.
    unfold Json.scan_once. rewrite Ascii.eqb_refl.
    now rewrite scanstring_escape_all.
Qed.

(** *** Objects *)

Lemma encode_items_cons kv d :
  Json.encode_items (kv :: d) = String Json.dquote (Json.items_tail kv d).
Proof.
  unfold Json.items_tail.
  destruct d as [| kv' d]; cbn [Json.encode_items];
    unfold Json.encode_item, Json.encode_string; norm_append.
  - now rewrite append_nil_r.
  - reflexivity.
Qed.

Lemma skip_ws_space x : Json.skip_ws (String " " x) = Json.skip_ws x.
Proof. reflexivity. Qed.

Lemma skip_ws_keep c x :
  Json.is_ws c = false -> Json.skip_ws (String c x) = String c x.
Proof. intros H. cbn [Json.skip_ws]. now rewrite H. Qed.

(** After a colon and a space, a written value is read back. *)
Lemma scan_once_after_colon v rest :
  Json.is_json_value v = true ->
  Json.ends_number rest = true ->
  Json.scan_once (Json.skip_ws (String " " (Json.encode_value v +:+ rest)))
  = Some (v, rest).
Proof.
  intros Hv Hrest. pose proof (scan_once_value v rest Hv Hrest) as H.
  now rewrite skip_ws_space, (scan_once_not_ws _ _ H).
Qed.

Lemma scan_pairs_items d :
  forall kv fuel rest,
    (length d < fuel)%nat ->
    Forall (fun kv => Json.is_json_value (snd kv) = true) (kv :: d) ->
    Json.scan_pairs fuel (Json.items_tail kv d +:+ String "}" rest)
    = Some (kv :: d, rest).
Proof.
  induction d as [| kv' d IH]; intros [k v] fuel rest Hfuel Hwf;
    (destruct fuel as [| fuel]; [cbn in Hfuel; lia |]);
    apply Forall_cons in Hwf; destruct Hwf as [Hv Hwf]; cbn [snd] in Hv;
    unfold Json.items_tail; cbn [fst snd Json.scan_pairs]; norm_append;
    rewrite scanstring_escape_all;
    rewrite (skip_ws_keep ":") by reflexivity;
    cbn [Ascii.eqb Bool.eqb negb];
    rewrite scan_once_after_colon by (exact Hv || reflexivity).
  - rewrite (skip_ws_keep "}") by reflexivity. reflexivity.
  - rewrite (skip_ws_keep ",") by reflexivity.
    cbn [Ascii.eqb Bool.eqb]. rewrite skip_ws_space, encode_items_cons.
    norm_append. rewrite (skip_ws_keep Json.dquote) by reflexivity.
    rewrite Ascii.eqb_refl.
    rewrite IH; [reflexivity | cbn in Hfuel; lia | exact Hwf].
Qed.

Lemma items_tail_length kv d :
  (length d < String.length (Json.items_tail kv d))%nat.
Proof.
  revert kv. induction d as [| kv' d IH]; intros kv; unfold Json.items_tail;
    rewrite length_append; cbn [String.length length].
  - lia.
  - rewrite !length_append, encode_items_cons. cbn [String.length].
    specialize (IH kv'). lia.
Qed.

Lemma dict_set_fresh k v d :
  ~ In k (map fst d) -> Py.dict_set k v d = d ++ [(k, v)].
Proof.
  induction d as [| [k' v'] d IH]; [reflexivity |]. cbn. intros Hnot.
  destruct (String.eqb_spec k k') as [-> | _]; [tauto |].
  now rewrite IH by tauto.
Qed.

(** Building a dictionary from items with distinct keys keeps the items. *)
Lemma dict_distinct items :
  NoDup (map fst items) -> Py.dict items = items.
Proof.
  unfold Py.dict.
  assert (forall acc, NoDup (map fst (acc ++ items)) ->
            fold_left (fun d kv => Py.dict_set (fst kv) (snd kv) d) items acc
            = acc ++ items) as H.
  { induction items as [| [k v] items IH]; intros acc Hnd; cbn [fold_left].
    - now rewrite app_nil_r.
    - cbn [fst snd]. rewrite dict_set_fresh.
      + rewrite IH; rewrite <- app_assoc; [reflexivity | exact Hnd].
      + rewrite map_app in Hnd. apply NoDup_app in Hnd.
        destruct Hnd as (_ & Hdisj & _). intros Hin.
        apply (Hdisj k); [now apply list_elem_of_In |].
        cbn. apply list_elem_of_In. now left. }
  intros Hnd. now apply (H []).
Qed.

(** [json.loads (json.dumps d)] is [d], for a dictionary with distinct
    keys whose floats are written as numbers. *)
Lemma loads_dumps d :
  NoDup (map fst d) ->
  Forall (fun kv => Json.is_json_value (snd kv) = true) d ->
  Json.loads (Json.dumps d) = Some d.
Proof.
  intros Hnd Hwf. unfold Json.dumps, Json.loads. norm_append.
  rewrite (skip_ws_keep "{") by reflexivity. rewrite Ascii.eqb_refl.
  destruct d as [| kv d].
  - reflexivity.
  - rewrite encode_items_cons. norm_append. unfold Json.scan_object.
    rewrite (skip_ws_keep Json.dquote) by reflexivity.
    cbn [Ascii.eqb Bool.eqb Json.dquote]. rewrite scan_pairs_items.
    + cbn [Json.skip_ws]. now rewrite dict_distinct.
    + rewrite length_append. pose proof (items_tail_length kv d). lia.
    + exact Hwf.
Qed.

Section DriverFacts.

Variable backend : call -> world -> bool * (gset string * gmap string string).

(** ** Each source block is an instance of [run_block] *)

Ltac block_eq :=
  intros config [w tr];
  unfold run_block, call_world, after_call, outcome; cbn;
  unfold download, basic_cleaning, data_check_step, data_split,
    train_random_forest, test_regression_model, local_uri, rf_config_file;
  unfold with_start_run, finally, bind, get_original_cwd, abspath, write_file,
    modify, get_world, ret, mlflow_run, on_world; cbn;
  match goal with
  | |- context [backend ?c ?w] => destruct (backend c w) as [[] [d f]]
  end; reflexivity.

Lemma download_block_eq config st :
  download backend config st = run_block backend (download_block config) st.
Proof. revert config st. block_eq. Qed.

Lemma basic_cleaning_block_eq config st :
  basic_cleaning backend config st = run_block backend (basic_cleaning_block config) st.
Proof. revert config st. block_eq. Qed.

Lemma data_check_block_eq config st :
  data_check_step backend config st = run_block backend (data_check_block config) st.
Proof. revert config st. block_eq. Qed.

Lemma data_split_block_eq config st :
  data_split backend config st = run_block backend (data_split_block config) st.
Proof. revert config st. block_eq. Qed.

Lemma train_random_forest_block_eq config st :
  train_random_forest backend config st
  = run_block backend (train_random_forest_block config) st.
Proof. revert config st. block_eq. Qed.

Lemma test_regression_model_block_eq config st :
  test_regression_model backend config st
  = run_block backend (test_regression_model_block config) st.
Proof. revert config st. block_eq. Qed.

Lemma when_ext b (m1 m2 : M unit) st :
  (forall st', m1 st' = m2 st') -> when b m1 st = when b m2 st.
Proof. intros H. destruct b; cbn; [apply H | reflexivity]. Qed.

Lemma bind_ext {A B} (m1 m2 : M A) (k1 k2 : A -> M B) st :
  (forall st', m1 st' = m2 st') ->
  (forall a st', k1 a st' = k2 a st') ->
  bind m1 k1 st = bind m2 k2 st.
Proof.
  intros Hm Hk. unfold bind. rewrite Hm.
  destruct (m2 st) as [[a | e] st']; [apply Hk | reflexivity].
Qed.

Lemma bind_ret_r (m : M unit) st : bind m (fun _ => ret tt) st = m st.
Proof. unfold bind, ret. destruct (m st) as [[[] | e] st']; reflexivity. Qed.

Lemma run_steps_blocks config active_steps st :
  run_steps backend config active_steps st
  = run_blocks backend (blocks config) active_steps st.
Proof.
  unfold run_steps, blocks, run_blocks.
  repeat (apply bind_ext; [intros; apply when_ext; intros | intros _; intros]).
  - apply download_block_eq.
  - apply basic_cleaning_block_eq.
  - apply data_check_block_eq.
  - apply data_split_block_eq.
  - apply train_random_forest_block_eq.
  - rewrite bind_ret_r. apply when_ext. intros. apply test_regression_model_block_eq.
Qed.

(** ** The functional driver follows the big-step relation *)

Lemma run_block_eq b w tr df ok :
  backend (b_call b w) (call_world b w) = (ok, df) ->
  run_block backend b (State w tr)
  = (outcome (b_name b) ok,
     State (after_call b (call_world b w) df)
           (tr ++ [Event (b_name b) (b_call b w) (call_world b w) ok])).
Proof. intros Hb. unfold run_block. cbn. rewrite Hb. reflexivity. Qed.

Lemma run_blocks_steps active_steps bs st :
  exists r evs w',
    run_blocks backend bs active_steps st = (r, State w' (st_trace st ++ evs))
    /\ steps_from backend active_steps bs (st_world st) evs r w'.
Proof.
  revert st. induction bs as [| b bs IH]; intros [w tr].
  - exists (Ok tt), [], w. cbn. rewrite app_nil_r.
    split; [reflexivity | constructor].
  - cbn [run_blocks st_world st_trace]. unfold bind, when.
    destruct (Py.mem (b_name b) active_steps) eqn:Hmem.
    + destruct (backend (b_call b w) (call_world b w)) as [ok df] eqn:Hb.
      rewrite (run_block_eq _ _ _ _ _ Hb).
      destruct ok; cbn [outcome].
      * edestruct IH as (r & evs & w' & Heq & Hsteps).
        rewrite Heq. cbn [st_world st_trace] in *.
        do 3 eexists. split.
        -- rewrite <- app_assoc. reflexivity.
        -- eapply steps_next; eauto.
      * do 3 eexists. split; [reflexivity | eapply steps_fail; eauto].
    + unfold ret.
      destruct (IH (State w tr)) as (r & evs & w' & Heq & Hsteps).
      exists r, evs, w'. split; [exact Heq | apply steps_skip; assumption].
Qed.

Lemma run_steps_from config w :
  exists r evs w',
    run backend config w = (r, State (rmtree (mkdtemp_name w) w') evs)
    /\ steps_from backend (active_steps_of (steps (main config))) (blocks config)
         (setup config w) evs r w'.
Proof.
  destruct (run_blocks_steps (active_steps_of (steps (main config)))
              (blocks config) (State (setup config w) []))
    as (r & evs & w' & Heq & Hsteps).
  cbn [st_world st_trace app] in Heq, Hsteps.
  exists r, evs, w'. split; [| exact Hsteps].
  unfold run, go, boot.
  unfold bind at 1. unfold modify at 1. cbn [st_world st_trace].
  unfold bind at 1. unfold modify at 1. cbn [st_world st_trace].
  unfold with_TemporaryDirectory, finally, on_world.
  cbn [st_world st_trace mkdtemp_name set_environ set_active_runs].
  rewrite run_steps_blocks. fold (setup config w).
  rewrite Heq. reflexivity.
Qed.

(** ** Induction on the big-step relation *)

(** The calls issued are the guarded names, possibly cut short. *)
Lemma steps_from_names active_steps bs w evs r w' :
  steps_from backend active_steps bs w evs r w' ->
  exists rest,
    guarded active_steps (map b_name bs) = map ev_step evs ++ rest
    /\ (r = Ok tt -> rest = []).
Proof.
  induction 1 as [w | b bs w evs r w' Hmem _ IH | b bs w df evs r w' Hmem Hb _ IH
                 | b bs w df Hmem Hb]; unfold guarded in *; cbn [map List.filter].
  - exists []. split; [reflexivity | trivial].
  - rewrite Hmem. exact IH.
  - rewrite Hmem. destruct IH as (rest & Heq & Hok).
    exists rest. split; [cbn; rewrite Heq; reflexivity | exact Hok].
  - rewrite Hmem. eexists. split; [reflexivity | discriminate].
Qed.

(** Only the last call can have failed, and it has exactly when the
    result is an exception, which then names that step. *)
Lemma steps_from_failure active_steps bs w evs r w' :
  steps_from backend active_steps bs w evs r w' ->
  match r with
  | Ok _ => Forall (fun e => ev_ok e = true) evs
  | Raise err =>
      exists evs0 e,
        evs = evs0 ++ [e] /\ Forall (fun e => ev_ok e = true) evs0
        /\ ev_ok e = false /\ err = StepExecutionError (ev_step e)
  end.
Proof.
  induction 1 as [w | b bs w evs r w' Hmem _ IH | b bs w df evs r w' Hmem Hb _ IH
                 | b bs w df Hmem Hb].
  - constructor.
  - exact IH.
  - destruct r as [u | err].
    + constructor; [reflexivity | exact IH].
    + destruct IH as (evs0 & e & -> & Hall & Hfail & Herr).
      eexists (_ :: evs0), e. split; [reflexivity |].
      split; [constructor; [reflexivity | exact Hall] | tauto].
  - exists [], (Event (b_name b) (b_call b w) (call_world b w) false).
    repeat split; constructor.
Qed.

(** A Hoare-style rule: a world invariant [I] kept by every block yields
    a property [Q] of every logged call. *)
Lemma steps_from_invariant (I : world -> Prop) (Q : event -> Prop)
    active_steps bs w evs r w' :
  (forall b w ok df,
      In b bs -> I w ->
      backend (b_call b w) (call_world b w) = (ok, df) ->
      Q (Event (b_name b) (b_call b w) (call_world b w) ok)
      /\ I (after_call b (call_world b w) df)) ->
  steps_from backend active_steps bs w evs r w' ->
  I w -> Forall Q evs /\ I w'.
Proof.
  intros Hblock Hsteps.
  induction Hsteps as [w | b bs w evs r w' Hmem _ IH | b bs w df evs r w' Hmem Hb _ IH
                      | b bs w df Hmem Hb]; intros HI.
  - split; [constructor | exact HI].
  - apply IH; [| exact HI]. intros; eapply Hblock; eauto. now right.
  - destruct (Hblock b w true df (or_introl eq_refl) HI Hb) as [HQ HI'].
    destruct IH as [Hall HIw']; [| exact HI' |].
    + intros; eapply Hblock; eauto. now right.
    + split; [constructor; assumption | exact HIw'].
  - destruct (Hblock b w false df (or_introl eq_refl) HI Hb) as [HQ HI'].
    split; [constructor; [exact HQ | constructor] | exact HI'].
Qed.

(** ** Selection *)

Lemma mem_Permutation x l l' : Permutation l l' -> Py.mem x l = Py.mem x l'.
Proof.
  unfold Py.mem. induction 1 as [| y l l' _ IH | y z l | l l' l'' _ IH1 _ IH2];
    cbn [existsb].
  - reflexivity.
  - now rewrite IH.
  - now rewrite !orb_assoc, (orb_comm (String.eqb x z)).
  - now rewrite IH1.
Qed.

(** The selection depends on which names are requested, not on the order
    in which they are written. *)
Lemma selection_Permutation S S' :
  S <> "all" -> S' <> "all" ->
  Permutation (Py.split "," S) (Py.split "," S') ->
  selection S = selection S'.
Proof.
  intros HS HS' Hperm. unfold selection, guarded, active_steps_of.
  apply String.eqb_neq in HS, HS'. rewrite HS, HS'. cbn [negb].
  apply List.filter_ext. intros name. now apply mem_Permutation.
Qed.

Lemma guarded_sublist active_steps names :
  guarded active_steps names `sublist_of` names.
Proof.
  induction names as [| n names IH]; cbn; [constructor |].
  destruct (Py.mem n active_steps); now constructor.
Qed.

Lemma blocks_names config : map b_name (blocks config) = canonical.
Proof. reflexivity. Qed.

Lemma canonical_NoDup : NoDup canonical.
Proof.
  unfold canonical, _steps. cbn.
  repeat (apply NoDup_cons; split;
          [rewrite ?elem_of_cons, elem_of_nil; intuition discriminate |]).
  apply NoDup_nil_2.
Qed.

(** What ran is the selection, cut after the first failing step. *)
Lemma executed_selection config w :
  exists rest,
    selection (steps (main config)) = executed backend config w ++ rest
    /\ (fst (run backend config w) = Ok tt -> rest = []).
Proof.
  destruct (run_steps_from config w) as (r & evs & w' & Heq & Hsteps).
  apply steps_from_names in Hsteps. rewrite blocks_names in Hsteps.
  unfold executed. rewrite Heq. exact Hsteps.
Qed.

Lemma executed_sublist config w :
  executed backend config w `sublist_of` canonical.
Proof.
  destruct (executed_selection config w) as (rest & Heq & _).
  transitivity (selection (steps (main config))).
  - rewrite Heq. apply sublist_inserts_r. reflexivity.
  - apply guarded_sublist.
Qed.

Lemma mem_spec x l : Py.mem x l = true <-> In x l.
Proof.
  unfold Py.mem. rewrite existsb_exists. split.
  - intros (y & Hin & Heq). apply String.eqb_eq in Heq. now subst.
  - intros Hin. exists x. split; [exact Hin | apply String.eqb_refl].
Qed.




(** The first selected step is always invoked. *)
Lemma steps_from_first active_steps bs w evs r w' :
  steps_from backend active_steps bs w evs r w' ->
  forall name rest,
    guarded active_steps (map b_name bs) = name :: rest ->
    exists evs', map ev_step evs = name :: evs'.
Proof.
  induction 1 as [w | b bs w evs r w' Hmem _ IH | b bs w df evs r w' Hmem Hb _ IH
                 | b bs w df Hmem Hb]; intros name rest; unfold guarded in *;
    cbn [map List.filter]; try rewrite Hmem.
  - discriminate.
  - apply IH.
  - intros [= <- _]. eexists; reflexivity.
  - intros [= <- _]. eexists; reflexivity.
Qed.

Lemma executed_first config w name rest :
  selection (steps (main config)) = name :: rest ->
  exists evs', executed backend config w = name :: evs'.
Proof.
  destruct (run_steps_from config w) as (r & evs & w' & Heq & Hsteps).
  unfold executed. rewrite Heq. cbn [snd st_trace]. intros Hsel.
  eapply steps_from_first; [exact Hsteps |]. rewrite blocks_names. exact Hsel.
Qed.

(** A request selecting one step executes exactly that step. *)
Lemma executed_single config w name :
  selection (steps (main config)) = [name] ->
  executed backend config w = [name].
Proof.
  intros Hsel.
  destruct (executed_first config w _ _ Hsel) as (evs' & Hex).
  destruct (executed_selection config w) as (rest & Heq & _).
  rewrite Hsel, Hex in Heq. destruct evs'; [exact Hex | discriminate].
Qed.

Lemma executed_NoDup config w : NoDup (executed backend config w).
Proof.
  apply (sublist_NoDup (executed backend config w) canonical);
    [apply canonical_NoDup | apply executed_sublist].
Qed.

(** Every logged outcome is what the backend answered for that call. *)
Lemma steps_from_backend active_steps bs w evs r w' :
  steps_from backend active_steps bs w evs r w' ->
  Forall (fun e => ev_ok e = fst (backend (ev_call e) (ev_world e))) evs.
Proof.
  intros Hsteps.
  apply (steps_from_invariant (fun _ => True)
           (fun e => ev_ok e = fst (backend (ev_call e) (ev_world e)))
           _ _ _ _ _ _) in Hsteps; [tauto | | exact I].
  intros b w1 ok df _ _ Hb. cbn. now rewrite Hb.
Qed.


(** A failed call is the last one and gives the result of the run. *)
Lemma failure_is_last config w pre e post :
  st_trace (snd (run backend config w)) = pre ++ e :: post ->
  ev_ok e = false ->
  post = [] /\ fst (run backend config w) = Raise (StepExecutionError (ev_step e)).
Proof.
  destruct (run_steps_from config w) as (r & evs & w' & Heq & Hsteps).
  rewrite Heq. cbn [fst snd st_trace]. intros -> Hno.
  pose proof (steps_from_failure _ _ _ _ _ _ Hsteps) as Hfail.
  destruct r as [[] | err].
  - apply Forall_app in Hfail. destruct Hfail as [_ Hfail].
    apply Forall_cons in Hfail. destruct Hfail as [Hfail _]. congruence.
  - destruct Hfail as (evs0 & e' & Hsplit & Hall & Hno' & ->).
    destruct post as [| x post _] using rev_ind.
    + apply app_inj_tail in Hsplit. destruct Hsplit as [_ ->]. split; reflexivity.
    + exfalso. change (pre ++ e :: post ++ [x]) with (pre ++ (e :: post) ++ [x]) in Hsplit.
      rewrite app_assoc in Hsplit.
      apply app_inj_tail in Hsplit. destruct Hsplit as [<- _].
      apply Forall_app in Hall. destruct Hall as [_ Hall].
      apply Forall_cons in Hall. destruct Hall as [Hall _]. congruence.
Qed.

(** ** What each logged call saw *)

Ltac each_block H :=
  unfold blocks in H; cbn [In] in H;
  repeat (destruct H as [<- | H]); [.. | contradiction].

(** Blocks change the disk only by the side file and what the backend
    does; the environment and the working directories stay fixed, and
    every run opened is ended. *)
Lemma blocks_frame config b w df :
  In b (blocks config) ->
  let w1 := call_world b w in
  let w2 := after_call b w1 df in
  environ w1 = environ w /\ cwd w1 = cwd w /\ original_cwd w1 = original_cwd w
  /\ mkdtemp_name w1 = mkdtemp_name w /\ dirs w1 = dirs w
  /\ environ w2 = environ w /\ cwd w2 = cwd w /\ original_cwd w2 = original_cwd w
  /\ mkdtemp_name w2 = mkdtemp_name w /\ dirs w2 = fst df /\ files w2 = snd df
  /\ active_runs w2 = active_runs w.
Proof. intros Hin. each_block Hin; cbn; repeat split. Qed.

Lemma blocks_run_name config b w :
  In b (blocks config) ->
  active_runs (call_world b w)
  = if String.eqb (b_name b) "download" then active_runs w
    else b_name b :: active_runs w.
Proof. intros Hin. each_block Hin; reflexivity. Qed.

Lemma blocks_rf_config config b w :
  In b (blocks config) ->
  b_name b = "train_random_forest" ->
  files (call_world b w) !! rf_config_file w
  = Some (Json.dumps (Py.dict (random_forest (modeling config))))
  /\ In ("rf_config", VStr (rf_config_file w)) (parameters (b_call b w)).
Proof.
  intros Hin. each_block Hin; cbn [b_name]; try discriminate. intros _. split.
  - cbn. apply lookup_insert_eq.
  - cbn. tauto.
Qed.

(** The run open at each call: none for [download], the step's own for
    the other five. *)
Lemma run_names config w :
  Forall (fun e =>
            active_runs (ev_world e)
            = if String.eqb (ev_step e) "download" then [] else [ev_step e])
         (st_trace (snd (run backend config w))).
Proof.
  destruct (run_steps_from config w) as (r & evs & w' & Heq & Hsteps).
  rewrite Heq. cbn [snd st_trace].
  eapply (steps_from_invariant (fun w1 => active_runs w1 = [])); [| exact Hsteps |].
  - intros b w1 ok df Hin Hruns _. cbn [ev_world ev_step]. split.
    + rewrite (blocks_run_name config b w1 Hin), Hruns. reflexivity.
    + destruct (blocks_frame config b w1 df Hin) as (_&_&_&_&_&_&_&_&_&_&_&->).
      exact Hruns.
  - reflexivity.
Qed.

(** The run group every call sees is the configured experiment name. *)
Lemma run_group config w :
  Forall (fun e =>
            environ (ev_world e) !! "WANDB_RUN_GROUP"
            = Some (experiment_name (main config)))
         (st_trace (snd (run backend config w))).
Proof.
  destruct (run_steps_from config w) as (r & evs & w' & Heq & Hsteps).
  rewrite Heq. cbn [snd st_trace].
  eapply (steps_from_invariant
            (fun w1 => environ w1 !! "WANDB_RUN_GROUP"
                       = Some (experiment_name (main config))));
    [| exact Hsteps |].
  - intros b w1 ok df Hin Henv _. cbn [ev_world].
    destruct (blocks_frame config b w1 df Hin) as (->&_&_&_&_&->&_).
    split; exact Henv.
  - cbn. apply lookup_insert_eq.
Qed.

(** At the training call the side file holds the dump of the
    hyperparameters and its path is the [rf_config] parameter. *)
Lemma rf_config_at_call config w :
  Forall (fun e =>
            ev_step e = "train_random_forest" ->
            files (ev_world e) !! rf_config_file w
            = Some (Json.dumps (Py.dict (random_forest (modeling config))))
            /\ In ("rf_config", VStr (rf_config_file w)) (parameters (ev_call e)))
         (st_trace (snd (run backend config w))).
Proof.
  destruct (run_steps_from config w) as (r & evs & w' & Heq & Hsteps).
  rewrite Heq. cbn [snd st_trace].
  eapply (steps_from_invariant (fun w1 => cwd w1 = cwd w)); [| exact Hsteps |].
  - intros b w1 ok df Hin Hcwd _. cbn [ev_world ev_step ev_call]. split.
    + intros Hname.
      replace (rf_config_file w) with (rf_config_file w1)
        by (unfold rf_config_file; now rewrite Hcwd).
      now apply blocks_rf_config.
    + destruct (blocks_frame config b w1 df Hin) as (_&_&_&_&_&_&->&_).
      exact Hcwd.
  - reflexivity.
Qed.

(** ** The temporary directory *)

Lemma is_under_refl d : is_under d d = true.
Proof. unfold is_under. now rewrite String.eqb_refl. Qed.

Lemma rmtree_dirs d w p : p ∈ dirs (rmtree d w) -> is_under d p = false.
Proof. cbn. rewrite elem_of_filter. tauto. Qed.

Lemma rmtree_files d w p : is_under d p = true -> files (rmtree d w) !! p = None.
Proof.
  intros Hu. cbn. apply map_lookup_filter_None. right.
  intros c _. cbn. congruence.
Qed.

Lemma tmp_dir_gone config w p :
  is_under (mkdtemp_name w) p = true ->
  (p ∉ dirs (st_world (snd (run backend config w))))
  /\ files (st_world (snd (run backend config w))) !! p = None.
Proof.
  intros Hu.
  destruct (run_steps_from config w) as (r & evs & w' & Heq & _).
  rewrite Heq. cbn [snd st_world]. split.
  - intros Hin. apply rmtree_dirs in Hin. congruence.
  - now apply rmtree_files.
Qed.

Lemma tmp_dir_alive config w :
  (forall c w', mkdtemp_name w ∈ dirs w' -> mkdtemp_name w ∈ fst (snd (backend c w'))) ->
  Forall (fun e => mkdtemp_name w ∈ dirs (ev_world e))
         (st_trace (snd (run backend config w))).
Proof.
  intros Hkeep.
  destruct (run_steps_from config w) as (r & evs & w' & Heq & Hsteps).
  rewrite Heq. cbn [snd st_trace].
  eapply (steps_from_invariant (fun w1 => mkdtemp_name w ∈ dirs w1));
    [| exact Hsteps |].
  - intros b w1 ok df Hin Hdir Hb. cbn [ev_world].
    destruct (blocks_frame config b w1 df Hin) as (_&_&_&_&Hd&_&_&_&_&->&_).
    split; [now rewrite Hd |].
    specialize (Hkeep (b_call b w1) (call_world b w1)).
    rewrite Hb, Hd in Hkeep. now apply Hkeep.
  - cbn. set_solver.
Qed.

(** Running [bs1 ++ bs2] is running [bs1] and, unless a step failed,
    [bs2] from where [bs1] ended. *)
Lemma steps_from_app active_steps bs1 bs2 w evs r w' :
  steps_from backend active_steps (bs1 ++ bs2) w evs r w' ->
  exists evs1 r1 w1,
    steps_from backend active_steps bs1 w evs1 r1 w1
    /\ match r1 with
       | Ok _ =>
           exists evs2,
             evs = evs1 ++ evs2
             /\ steps_from backend active_steps bs2 w1 evs2 r w'
       | Raise _ => evs = evs1 /\ r = r1 /\ w' = w1
       end.
Proof.
  revert w evs r w'. induction bs1 as [| b bs1 IH]; intros w evs r w' H.
  - exists [], (Ok tt), w. split; [constructor |]. exists evs. now split.
  - cbn [app] in H.
    inversion H as [| b' bs' w0 evs0 r0 w0' Hmem Hs
                    | b' bs' w0 df evs0 r0 w0' Hmem Hb Hs
                    | b' bs' w0 df Hmem Hb]; subst.
    + destruct (IH _ _ _ _ Hs) as (evs1 & r1 & w1 & H1 & Hrest).
      exists evs1, r1, w1. split; [now apply steps_skip | exact Hrest].
    + destruct (IH _ _ _ _ Hs) as (evs1 & r1 & w1 & H1 & Hrest).
      exists (Event (b_name b) (b_call b w) (call_world b w) true :: evs1), r1, w1.
      split; [eapply steps_next; eauto |].
      destruct r1 as [u | err].
      * destruct Hrest as (evs2 & -> & H2). exists evs2. now split.
      * destruct Hrest as (-> & -> & ->). now repeat split.
    + exists [Event (b_name b) (b_call b w) (call_world b w) false],
        (Raise (StepExecutionError (b_name b))),
        (after_call b (call_world b w) df).
      split; [eapply steps_fail; eauto | now repeat split].
Qed.

(** The steps logged come from the blocks run. *)
Lemma steps_from_steps active_steps bs w evs r w' :
  steps_from backend active_steps bs w evs r w' ->
  Forall (fun e => In (ev_step e) (map b_name bs)) evs.
Proof.
  intros H.
  apply (steps_from_invariant (fun _ => True)
           (fun e => In (ev_step e) (map b_name bs))) in H; [tauto | | exact I].
  intros b w1 ok df Hin _ _. split; [| exact I]. cbn [ev_step]. now apply in_map.
Qed.

(** ** Requests that differ in unknown names only *)





(** ** The training call *)

(** What the log holds as the outcome of a call is what the backend
    answered. *)
Lemma logged_outcomes config w :
  Forall (fun e => ev_ok e = fst (backend (ev_call e) (ev_world e)))
         (st_trace (snd (run backend config w))).
Proof.
  destruct (run_steps_from config w) as (r & evs & w' & Heq & Hsteps).
  rewrite Heq. cbn [snd st_trace]. eapply steps_from_backend. exact Hsteps.
Qed.

(** When the training step is selected and no step before it has failed,
    the training step is called. *)
Lemma train_call_exists config w :
  Py.mem "train_random_forest" (active_steps_of (steps (main config))) = true ->
  Forall (fun e =>
            ev_step e <> "train_random_forest" ->
            ev_step e <> "test_regression_model" -> ev_ok e = true)
         (st_trace (snd (run backend config w))) ->
  exists e,
    In e (st_trace (snd (run backend config w)))
    /\ ev_step e = "train_random_forest".
Proof.
  intros Hsel.
  destruct (run_steps_from config w) as (r & evs & w' & Heq & Hsteps).
  rewrite Heq. cbn [snd st_trace]. intros Hok.
  change (blocks config)
    with ([download_block config; basic_cleaning_block config;
           data_check_block config; data_split_block config]
          ++ [train_random_forest_block config; test_regression_model_block config])
    in Hsteps.
  apply steps_from_app in Hsteps.
  destruct Hsteps as (evs1 & r1 & w1 & H1 & Hrest).
  destruct r1 as [u | err].
  - destruct Hrest as (evs2 & -> & H2).
    inversion H2 as [| b' bs' w0 evs0 r0 w0' Hmem Hs
                     | b' bs' w0 df evs0 r0 w0' Hmem Hb Hs
                     | b' bs' w0 df Hmem Hb]; subst.
    + cbn [b_name train_random_forest_block] in Hmem. congruence.
    + eexists. split; [apply in_or_app; right; left; reflexivity | reflexivity].
    + eexists. split; [apply in_or_app; right; left; reflexivity | reflexivity].
  - destruct Hrest as (-> & _ & _). exfalso.
    pose proof (steps_from_failure _ _ _ _ _ _ H1) as (evs0 & e & -> & _ & Hno & _).
    apply steps_from_steps in H1.
    apply Forall_app in H1, Hok. destruct H1 as [_ H1]. destruct Hok as [_ Hok].
    apply Forall_cons in H1, Hok. destruct H1 as [H1 _]. destruct Hok as [Hok _].
    cbn in H1. rewrite Hok in Hno; [discriminate | |];
      intros Hname; rewrite Hname in H1; intuition discriminate.
Qed.

End DriverFacts.

(** ** Claims about selection and order *)

(** C1.  Whatever the requested string, the steps the driver executes form
    a subsequence of the canonical sequence: they are among the six steps
    and run in canonical order.  They are the selection of the request, cut
    short only by a failing step, and the selection does not depend on the
    order of the tokens: ["data_split,download"] selects [download] before
    [data_split]. *)
Theorem C1_executed_in_canonical_order :
  forall backend config w,
    executed backend config w `sublist_of` canonical
    /\ executed backend config w `prefix_of` selection (steps (main config))
    /\ (fst (run backend config w) = Ok tt ->
        executed backend config w = selection (steps (main config)))
    /\ (forall S S',
          S <> "all" -> S' <> "all" ->
          Permutation (Py.split "," S) (Py.split "," S') ->
          selection S = selection S')
    /\ selection "data_split,download" = ["download"; "data_split"].
Proof.
  intros backend config w.
  destruct (executed_selection backend config w) as (rest & Heq & Hok).
  split; [apply executed_sublist |].
  split; [exists rest; exact Heq |].
  split; [| split; [apply selection_Permutation | reflexivity]].
  intros H. rewrite Heq, (Hok H), app_nil_r. reflexivity.
Qed.

Lemma C1_witness :
  executed Sample.all_ok (Sample.config "data_split,download") Sample.w0
  = ["download"; "data_split"]
  /\ selection "data_split,download" = selection "download,data_split".
Proof.
  pose proof (C1_executed_in_canonical_order Sample.all_ok
                (Sample.config "data_split,download") Sample.w0)
    as (_ & _ & Hrun & Hperm & _).
  split.
  - rewrite Hrun; [reflexivity | vm_compute; reflexivity].
  - apply Hperm; [discriminate | discriminate | apply perm_swap].
Defined.




(** C3.  The request ["all"] selects exactly the five default steps, so
    [test_regression_model] is not among them; the request
    ["test_regression_model"] selects that step alone, and the driver then
    executes it and nothing else. *)
Theorem C3_all_excludes_test_regression_model :
  selection "all"
  = ["download"; "basic_cleaning"; "data_check"; "data_split"; "train_random_forest"]
  /\ ~ In "test_regression_model" (selection "all")
  /\ selection "test_regression_model" = ["test_regression_model"]
  /\ forall backend config w,
       (steps (main config) = "all" ->
        ~ In "test_regression_model" (executed backend config w)
        /\ (fst (run backend config w) = Ok tt ->
            executed backend config w = selection "all"))
       /\ (steps (main config) = "test_regression_model" ->
           executed backend config w = ["test_regression_model"]).
Proof.
  split; [reflexivity |].
  split; [cbn; intuition discriminate |].
  split; [reflexivity |].
  intros backend config w. split; intros Hsteps.
  - destruct (executed_selection backend config w) as (rest & Heq & Hok).
    rewrite Hsteps in Heq. split.
    + intros Hin.
      assert (In "test_regression_model" (selection "all")) as Hsel
        by (rewrite Heq; apply in_or_app; now left).
      cbn in Hsel. intuition discriminate.
    + intros H. rewrite Heq, (Hok H), app_nil_r. reflexivity.
  - apply executed_single. rewrite Hsteps. reflexivity.
Qed.

Lemma C3_witness :
  executed Sample.all_ok (Sample.config "all") Sample.w0 = selection "all"
  /\ executed (Sample.fail_at "/work/src/data_check")
       (Sample.config "test_regression_model") Sample.w0
     = ["test_regression_model"].
Proof.
  pose proof C3_all_excludes_test_regression_model as (_ & _ & _ & H).
  split.
  - apply (proj1 (H Sample.all_ok (Sample.config "all") Sample.w0));
      [reflexivity | vm_compute; reflexivity].
  - apply (proj2 (H (Sample.fail_at "/work/src/data_check")
                    (Sample.config "test_regression_model") Sample.w0)).
    reflexivity.
Defined.

(** ** Claims about failure *)

(** C7.  When a step's invocation fails, it is the last call of the
    invocation: no later step runs, the driver's result is the error of
    that step, and the step had not been tried before (no retry). *)
Theorem C7_first_failure_halts :
  forall backend config w pre e post,
    st_trace (snd (run backend config w)) = pre ++ e :: post ->
    ev_ok e = false ->
    post = []
    /\ fst (run backend config w) = Raise (StepExecutionError (ev_step e))
    /\ ~ In (ev_step e) (map ev_step pre).
Proof.
  intros backend config w pre e post Htrace Hno.
  destruct (failure_is_last backend config w pre e post Htrace Hno) as [-> Hres].
  split; [reflexivity |]. split; [exact Hres |].
  pose proof (executed_NoDup backend config w) as Hnd.
  unfold executed in Hnd. rewrite Htrace, map_app in Hnd. cbn [map] in Hnd.
  apply NoDup_app in Hnd. destruct Hnd as (_ & Hdisj & _).
  intros Hin. apply (Hdisj (ev_step e)).
  - now apply list_elem_of_In.
  - apply list_elem_of_In. now left.
Qed.

Lemma C7_witness :
  fst (run (Sample.fail_at "/work/src/data_check") (Sample.config "all") Sample.w0)
  = Raise (StepExecutionError "data_check")
  /\ executed (Sample.fail_at "/work/src/data_check") (Sample.config "all") Sample.w0
     = ["download"; "basic_cleaning"; "data_check"].
Proof.
  pose (r := run (Sample.fail_at "/work/src/data_check") (Sample.config "all") Sample.w0).
  pose (tr := st_trace (snd r)).
  pose (d := Event "" (Call "" "" None "" []) Sample.w0 true).
  assert (tr = removelast tr ++ List.last tr d :: []) as Htrace
    by (vm_compute; reflexivity).
  assert (ev_ok (List.last tr d) = false) as Hno by (vm_compute; reflexivity).
  destruct (C7_first_failure_halts _ _ _ _ _ _ Htrace Hno) as (_ & Hres & _).
  split; [| vm_compute; reflexivity].
  etransitivity; [exact Hres |]. vm_compute. reflexivity.
Defined.

(** ** Claims about repetition *)

(** C10.  No step is executed twice in one invocation, whatever the
    request; in particular ["download,download"] runs [download] exactly
    once. *)
Theorem C10_each_step_at_most_once :
  forall backend config w,
    NoDup (executed backend config w)
    /\ (steps (main config) = "download,download" ->
        executed backend config w = ["download"]).
Proof.
  intros backend config w. split; [apply executed_NoDup |].
  intros Hsteps. apply executed_single. rewrite Hsteps. reflexivity.
Qed.

Lemma C10_witness :
  executed Sample.all_ok (Sample.config "download,download") Sample.w0
  = ["download"].
Proof.
  apply (proj2 (C10_each_step_at_most_once Sample.all_ok
                  (Sample.config "download,download") Sample.w0)).
  reflexivity.
Defined.

(** ** Claims about the temporary directory *)

(** With the [logging] runner the first step leaves a file below the
    temporary directory: the second step sees it, and it is gone in the
    end. *)
Example logging_file_is_transient :
  let r := run Sample.logging (Sample.config "download,data_check") Sample.w0 in
  map (fun e => (ev_step e, files (ev_world e) !! "/tmp/tmpa1b2c3/step.log"))
      (st_trace (snd r))
  = [("download", None); ("data_check", Some "done")]
  /\ files (st_world (snd r)) !! "/tmp/tmpa1b2c3/step.log" = None.
Proof. split; vm_compute; reflexivity. Qed.

(** C6.  After the driver returns, with success or with a step error alike,
    the temporary directory is gone together with every directory and file
    below it; and as long as the steps themselves do not delete it, it
    exists at every step's invocation. *)
Theorem C6_temporary_directory_scoped :
  forall backend config w,
    let tmp_dir := mkdtemp_name w in
    let final := st_world (snd (run backend config w)) in
    (tmp_dir ∉ dirs final)
    /\ (forall p, is_under tmp_dir p = true ->
                  (p ∉ dirs final) /\ files final !! p = None)
    /\ ((forall c w', tmp_dir ∈ dirs w' -> tmp_dir ∈ fst (snd (backend c w'))) ->
        Forall (fun e => tmp_dir ∈ dirs (ev_world e))
               (st_trace (snd (run backend config w)))).
Proof.
  intros backend config w tmp_dir final.
  split; [apply tmp_dir_gone, is_under_refl |].
  split; [intros p Hu; now apply tmp_dir_gone |].
  apply tmp_dir_alive.
Qed.

Lemma C6_witness :
  let r := run Sample.logging (Sample.config "all") Sample.w0 in
  Forall (fun e => "/tmp/tmpa1b2c3" ∈ dirs (ev_world e)) (st_trace (snd r))
  /\ files (st_world (snd r)) !! "/tmp/tmpa1b2c3/step.log" = None.
Proof.
  pose proof (C6_temporary_directory_scoped Sample.logging
                (Sample.config "all") Sample.w0) as (_ & Hgone & Halive).
  split.
  - apply Halive. intros c w' Hin. exact Hin.
  - apply Hgone. reflexivity.
Defined.

(** ** The hyperparameter side file *)

(** C5.  When the training step is selected and no step before it fails,
    the training step is called, and at that call the file whose path it
    receives as [rf_config] exists and holds a JSON document that reads
    back as exactly the [modeling.random_forest] mapping: same keys, same
    values, nothing added and nothing lost.  This holds at every training
    call.  The mapping has distinct keys, and its floats are finite (they
    are written as numbers). *)
Theorem C5_side_file_round_trip :
  forall backend config w,
    let rf := random_forest (modeling config) in
    let tr := st_trace (snd (run backend config w)) in
    NoDup (map fst rf) ->
    Forall (fun kv => Json.is_json_value (snd kv) = true) rf ->
    Json.loads (Json.dumps rf) = Some rf
    /\ Forall (fun e =>
                 ev_step e = "train_random_forest" ->
                 exists path text,
                   In ("rf_config", VStr path) (parameters (ev_call e))
                   /\ files (ev_world e) !! path = Some text
                   /\ Json.loads text = Some rf)
              tr
    /\ (Py.mem "train_random_forest" (active_steps_of (steps (main config))) = true ->
        Forall (fun e =>
                  ev_step e <> "train_random_forest" ->
                  ev_step e <> "test_regression_model" -> ev_ok e = true)
               tr ->
        exists e path text,
          In e tr /\ ev_step e = "train_random_forest"
          /\ In ("rf_config", VStr path) (parameters (ev_call e))
          /\ files (ev_world e) !! path = Some text
          /\ text = Json.dumps rf
          /\ Json.loads text = Some rf).
Proof.
  intros backend config w rf tr Hnd Hwf.
  pose proof (loads_dumps rf Hnd Hwf) as Hrt.
  pose proof (rf_config_at_call backend config w) as Hat.
  rewrite List.Forall_forall in Hat.
  assert (forall e, In e tr -> ev_step e = "train_random_forest" ->
            In ("rf_config", VStr (rf_config_file w)) (parameters (ev_call e))
            /\ files (ev_world e) !! rf_config_file w = Some (Json.dumps rf))
    as Hfile.
  { intros e He Hname. destruct (Hat e He Hname) as [Hf Hp].
    split; [exact Hp |]. rewrite Hf. fold rf. now rewrite dict_distinct. }
  split; [exact Hrt |]. split.
  - apply List.Forall_forall. intros e He Hname.
    destruct (Hfile e He Hname) as [Hp Hf].
    exists (rf_config_file w), (Json.dumps rf). now repeat split.
  - intros Hsel Hearlier.
    destruct (train_call_exists backend config w Hsel Hearlier) as (e & He & Hname).
    destruct (Hfile e He Hname) as [Hp Hf].
    exists e, (rf_config_file w), (Json.dumps rf). now repeat split.
Qed.

Lemma C5_witness :
  let cfg := Sample.config "all" in
  exists e path text,
    In e (st_trace (snd (run Sample.all_ok cfg Sample.w0)))
    /\ ev_step e = "train_random_forest"
    /\ In ("rf_config", VStr path) (parameters (ev_call e))
    /\ files (ev_world e) !! path = Some text
    /\ text = Json.dumps (random_forest (modeling cfg))
    /\ Json.loads text = Some (random_forest (modeling cfg)).
Proof.
  intros cfg.
  refine (proj2 (proj2 (C5_side_file_round_trip Sample.all_ok cfg Sample.w0 _ _))
            _ _).
  - cbn.
    repeat (apply NoDup_cons_2;
            [rewrite ?elem_of_cons, elem_of_nil; intuition discriminate |]).
    apply NoDup_nil_2.
  - repeat (constructor; [reflexivity |]). constructor.
  - reflexivity.
  - eapply Forall_impl; [apply (logged_outcomes Sample.all_ok cfg Sample.w0) |].
    intros e He _ _. rewrite He. reflexivity.
Defined.

(** ** Where the code departs from the specification *)

(** C4.  With the working directory [/work/outputs] and the temporary
    directory [/tmp/tmpa1b2c3], the training step is handed the path
    [/work/outputs/rf_config.json]: the side file is written next to the
    working directory, not below the temporary directory, and it is still
    on disk after the driver has returned and the temporary directory is
    gone. *)
Theorem C4_side_file_outside_temporary_directory :
  let r := run Sample.all_ok (Sample.config "train_random_forest") Sample.w0 in
  let final := st_world (snd r) in
  map (fun e => (ev_step e,
                 List.filter (fun kv => String.eqb (fst kv) "rf_config")
                             (parameters (ev_call e))))
      (st_trace (snd r))
  = [("train_random_forest", [("rf_config", VStr "/work/outputs/rf_config.json")])]
  /\ is_under "/tmp/tmpa1b2c3" "/work/outputs/rf_config.json" = false
  /\ fst r = Ok tt
  /\ ("/tmp/tmpa1b2c3" ∉ dirs final)
  /\ files final !! "/work/outputs/rf_config.json"
     = Some (Json.dumps
               (Py.dict (random_forest (modeling (Sample.config "train_random_forest"))))).
Proof.
  cbv zeta. split; [vm_compute; reflexivity |].
  split; [vm_compute; reflexivity |].
  split; [vm_compute; reflexivity |].
  split; [| vm_compute; reflexivity].
  apply (tmp_dir_gone Sample.all_ok (Sample.config "train_random_forest") Sample.w0).
  apply is_under_refl.
Qed.

(** C8.  Five of the six steps are invoked inside a run named after the
    step; [download] is invoked with no run open at all.  Every call sees
    the configured run group. *)
Theorem C8_download_has_no_named_run :
  (forall backend config w,
      Forall (fun e =>
                environ (ev_world e) !! "WANDB_RUN_GROUP"
                = Some (experiment_name (main config))
                /\ active_runs (ev_world e)
                   = if String.eqb (ev_step e) "download" then []
                     else [ev_step e])
             (st_trace (snd (run backend config w))))
  /\ map (fun e => (ev_step e, active_runs (ev_world e)))
         (st_trace (snd (run Sample.all_ok (Sample.config "download,data_check")
                           Sample.w0)))
     = [("download", []); ("data_check", ["data_check"])].
Proof.
  split; [| vm_compute; reflexivity].
  intros backend config w.
  pose proof (run_group backend config w) as Hg.
  pose proof (run_names backend config w) as Hn.
  rewrite List.Forall_forall in *. intros e He. split; [now apply Hg | now apply Hn].
Qed.

(** C9.  Only the values the source wraps in [str(...)] reach a step as
    strings.  With the numeric prices 10 and 350 and the threshold 0.2,
    [basic_cleaning] and [data_check] receive them as numbers, while the
    numeric parameters of [data_split] and [train_random_forest] arrive as
    strings. *)
Theorem C9_not_every_parameter_is_a_string :
  map (fun e => (ev_step e,
                 List.filter (fun kv => negb (Py.is_str (snd kv)))
                             (parameters (ev_call e))))
      (st_trace (snd (run Sample.all_ok (Sample.config "all") Sample.w0)))
  = [ ("download", []);
      ("basic_cleaning", [("min_price", VInt 10); ("max_price", VInt 350)]);
      ("data_check", [("kl_threshold", VFloat "0.2");
                      ("min_price", VInt 10); ("max_price", VInt 350)]);
      ("data_split", []);
      ("train_random_forest", []) ].
Proof. vm_compute. reflexivity. Qed.

(** * Further properties of the driver *)

Section MoreDriverFacts.

Variable backend : call -> world -> bool * (gset string * gmap string string).

(** A block sequence that issued no call ended normally where it
    started. *)
Lemma steps_from_no_call active_steps bs w r w' :
  steps_from backend active_steps bs w [] r w' -> r = Ok tt /\ w' = w.
Proof.
  intros H. remember [] as evs eqn:E.
  induction H; try discriminate E; auto.
Qed.

Lemma rmtree_dirs_keep d w p :
  is_under d p = false -> p ∈ dirs (rmtree d w) <-> p ∈ dirs w.
Proof. intros Hu. cbn. rewrite elem_of_filter. tauto. Qed.

Lemma rmtree_files_keep d w p :
  is_under d p = false -> files (rmtree d w) !! p = files w !! p.
Proof.
  intros Hu. cbn. destruct (files w !! p) as [c |] eqn:E.
  - apply map_lookup_filter_Some. split; [exact E | exact Hu].
  - apply map_lookup_filter_None. left. exact E.
Qed.

End MoreDriverFacts.

(** ** Runs and empty requests *)

(** X2.  Every MLflow run [go] opens is ended again: when [go] returns,
    normally or with the error of a step, no run is left open. *)
Theorem go_leaves_no_run_open :
  forall backend config w,
    active_runs (st_world (snd (run backend config w))) = [].
Proof.
  intros backend config w.
  destruct (run_steps_from backend config w) as (r & evs & w' & Heq & Hsteps).
  rewrite Heq. cbn [snd st_world].
  apply (steps_from_invariant backend (fun w1 => active_runs w1 = [])
           (fun _ => True)) in Hsteps.
  - destruct Hsteps as [_ Hruns]. exact Hruns.
  - intros b w1 ok df Hin Hruns _. split; [exact I |].
    destruct (blocks_frame config b w1 df Hin) as (_&_&_&_&_&_&_&_&_&_&_&->).
    exact Hruns.
  - reflexivity.
Qed.

(** X4.  A request that names none of the six steps (the empty string,
    for one) makes [go] a no-op on the disk: it issues no call, returns
    normally, and outside the temporary directory the directories and
    files are those it found. *)
Theorem go_without_selected_step :
  forall backend config w,
    selection (steps (main config)) = [] ->
    let final := st_world (snd (run backend config w)) in
    fst (run backend config w) = Ok tt
    /\ st_trace (snd (run backend config w)) = []
    /\ forall p, is_under (mkdtemp_name w) p = false ->
                 (p ∈ dirs final <-> p ∈ dirs w)
                 /\ files final !! p = files w !! p.
Proof.
  intros backend config w Hsel final. subst final.
  destruct (executed_selection backend config w) as (rest & Hex & _).
  rewrite Hsel in Hex. symmetry in Hex. apply app_eq_nil in Hex.
  destruct Hex as [Hex _]. unfold executed in Hex.
  destruct (run_steps_from backend config w) as (r & evs & w' & Heq & Hsteps).
  rewrite Heq in *. cbn [fst snd st_trace st_world] in *.
  apply map_eq_nil in Hex. subst evs.
  apply steps_from_no_call in Hsteps. destruct Hsteps as [-> ->].
  split; [reflexivity |]. split; [reflexivity |].
  intros p Hu. split.
  - rewrite rmtree_dirs_keep by exact Hu. cbn.
    rewrite elem_of_union, elem_of_singleton. split; [| tauto].
    intros [-> | H]; [| exact H]. rewrite is_under_refl in Hu. discriminate.
  - rewrite rmtree_files_keep by exact Hu. reflexivity.
Qed.

Lemma go_without_selected_step_witness :
  fst (run Sample.all_ok (Sample.config "") Sample.w0) = Ok tt
  /\ st_trace (snd (run Sample.all_ok (Sample.config "") Sample.w0)) = [].
Proof.
  pose proof (go_without_selected_step Sample.all_ok (Sample.config "")
                Sample.w0 eq_refl) as (Hok & Hnil & _).
  split; assumption.
Defined.

(** ** Files the blocks leave alone *)

Lemma blocks_files_frame config b w p :
  In b (blocks config) ->
  p <> rf_config_file w \/ b_name b <> "train_random_forest" ->
  files (call_world b w) !! p = files w !! p.
Proof.
  intros Hin Hp. unfold blocks in Hin. cbn [In] in Hin.
  repeat (destruct Hin as [<- | Hin]); try contradiction; try reflexivity.
  cbn. destruct Hp as [Hp | Hp]; [| now contradiction Hp].
  apply lookup_insert_ne. congruence.
Qed.

(** ** The calls *)

Lemma blocks_call_stable config b w1 w2 :
  In b (blocks config) ->
  cwd w1 = cwd w2 -> original_cwd w1 = original_cwd w2 ->
  b_call b w1 = b_call b w2.
Proof.
  intros Hin Hc Ho. unfold blocks in Hin. cbn [In] in Hin.
  repeat (destruct Hin as [<- | Hin]); try contradiction;
    cbn; unfold local_uri, rf_config_file; now rewrite ?Hc, ?Ho.
Qed.

(** Every logged call is the call of one of the six blocks, built in the
    world [go] was started in. *)
Lemma calls_of_blocks backend config w :
  Forall (fun e => exists b,
              In b (blocks config) /\ ev_step e = b_name b
              /\ ev_call e = b_call b w)
         (st_trace (snd (run backend config w))).
Proof.
  destruct (run_steps_from backend config w) as (r & evs & w' & Heq & Hsteps).
  rewrite Heq. cbn [snd st_trace].
  apply (steps_from_invariant backend
           (fun w1 => cwd w1 = cwd w /\ original_cwd w1 = original_cwd w)
           (fun e => exists b, In b (blocks config) /\ ev_step e = b_name b
                               /\ ev_call e = b_call b w)) in Hsteps.
  - tauto.
  - intros b w1 ok df Hin [Hc Ho] _. cbn [ev_step ev_call]. split.
    + exists b. repeat split; [exact Hin |].
      now apply (blocks_call_stable config).
    + destruct (blocks_frame config b w1 df Hin)
        as (_ & _ & _ & _ & _ & _ & -> & -> & _). tauto.
  - split; reflexivity.
Qed.

Lemma prefix_append s t : String.prefix s (s +:+ t) = true.
Proof.
  induction s as [| c s IH]; [now destruct t |].
  rewrite append_cons. cbn [String.prefix].
  destruct (ascii_dec c c) as [_ | Hne]; [exact IH | now contradiction Hne].
Qed.

(** X6.  Every call uses the entry point [main] and is of one of two
    kinds.  The steps [download], [data_split] and [test_regression_model]
    are fetched from the components repository, at version [main], in a
    conda environment.  The steps [basic_cleaning], [data_check] and
    [train_random_forest] are run from [src/<step>] below the directory the
    program was launched from (not below the working directory), with no
    version, in the local environment. *)
Theorem calls_are_remote_or_local :
  forall backend config w,
    Forall (fun e =>
              entry_point (ev_call e) = "main"
              /\ ((In (ev_step e) ["download"; "data_split"; "test_regression_model"]
                   /\ env_manager (ev_call e) = "conda"
                   /\ version (ev_call e) = Some "main"
                   /\ String.prefix (components_repository (main config) +:+ "/")
                                    (uri (ev_call e)) = true)
                  \/ (In (ev_step e)
                         ["basic_cleaning"; "data_check"; "train_random_forest"]
                      /\ env_manager (ev_call e) = "local"
                      /\ version (ev_call e) = None
                      /\ uri (ev_call e)
                         = Py.path_join (Py.path_join (original_cwd w) "src")
                                        (ev_step e))))
           (st_trace (snd (run backend config w))).
Proof.
  intros backend config w.
  pose proof (calls_of_blocks backend config w) as H.
  rewrite List.Forall_forall in *. intros e He.
  destruct (H e He) as (b & Hin & -> & ->). clear H He.
  unfold blocks in Hin. cbn [In] in Hin.
  repeat (destruct Hin as [<- | Hin]); try contradiction;
    (split; [reflexivity |]); cbn [b_name b_call uri env_manager version
                                   download_block basic_cleaning_block
                                   data_check_block data_split_block
                                   train_random_forest_block
                                   test_regression_model_block].
  - left. repeat split; [cbn; tauto |].
    change (components_repository (main config) +:+ "/get_data")
      with (components_repository (main config) +:+ "/" +:+ "get_data").
    rewrite <- append_assoc. apply prefix_append.
  - right. repeat split. cbn; tauto.
  - right. repeat split. cbn; tauto.
  - left. repeat split; [cbn; tauto |].
    change (components_repository (main config) +:+ "/train_val_test_split")
      with (components_repository (main config) +:+ "/" +:+ "train_val_test_split").
    rewrite <- append_assoc. apply prefix_append.
  - right. repeat split. cbn; tauto.
  - left. repeat split; [cbn; tauto |].
    change (components_repository (main config) +:+ "/test_regression_model")
      with (components_repository (main config) +:+ "/" +:+ "test_regression_model").
    rewrite <- append_assoc. apply prefix_append.
Qed.

Ltac solve_params :=
  repeat match goal with
         | H : In _ (_ :: _) |- _ => destruct H as [H | H]
         | H : In _ [] |- _ => destruct H
         | H : (_, _) = (_, _) |- _ => inversion H; clear H; subst
         end;
  try reflexivity; try discriminate.

Lemma blocks_parameters_agree config w b1 b2 k v1 v2 :
  In b1 (blocks config) -> In b2 (blocks config) ->
  k <> "output_artifact" ->
  In (k, v1) (parameters (b_call b1 w)) ->
  In (k, v2) (parameters (b_call b2 w)) ->
  v1 = v2.
Proof.
  intros H1 H2. unfold blocks in H1, H2. cbn [In] in H1, H2.
  repeat (destruct H1 as [<- | H1]); try contradiction;
    repeat (destruct H2 as [<- | H2]); try contradiction;
    cbn [b_call parameters download_block basic_cleaning_block data_check_block
         data_split_block train_random_forest_block test_regression_model_block];
    intros Hk Hk1 Hk2; solve_params; now contradiction Hk.
Qed.

(** X7.  Within one invocation a parameter name stands for one value
    ([output_artifact] apart, which names each step's own product): when
    two calls, or one call twice, carry a parameter of the same name, they
    carry the same value.  So [basic_cleaning] and [data_check] get the
    same price bounds, and [data_split] and [train_random_forest] the same
    seed and stratification column. *)
Theorem parameters_agree_across_steps :
  forall backend config w e1 e2 k v1 v2,
    In e1 (st_trace (snd (run backend config w))) ->
    In e2 (st_trace (snd (run backend config w))) ->
    k <> "output_artifact" ->
    In (k, v1) (parameters (ev_call e1)) ->
    In (k, v2) (parameters (ev_call e2)) ->
    v1 = v2.
Proof.
  intros backend config w e1 e2 k v1 v2 He1 He2.
  pose proof (calls_of_blocks backend config w) as H.
  rewrite List.Forall_forall in H.
  destruct (H e1 He1) as (b1 & Hb1 & _ & ->).
  destruct (H e2 He2) as (b2 & Hb2 & _ & ->).
  now apply (blocks_parameters_agree config w b1 b2).
Qed.

(** The two steps that write [output_artifact] give it different values. *)
Example output_artifact_differs :
  map (fun e => (ev_step e,
                 List.filter (fun kv => String.eqb (fst kv) "output_artifact")
                             (parameters (ev_call e))))
      (st_trace (snd (run Sample.all_ok
                        (Sample.config "basic_cleaning,train_random_forest")
                        Sample.w0)))
  = [ ("basic_cleaning", [("output_artifact", VStr "clean_sample.csv")]);
      ("train_random_forest", [("output_artifact", VStr "random_forest_export")]) ].
Proof. vm_compute. reflexivity. Qed.

Lemma parameters_agree_across_steps_witness :
  let tr := st_trace (snd (run Sample.all_ok
                             (Sample.config "data_split,train_random_forest")
                             Sample.w0)) in
  map (fun e => List.filter (fun kv => String.eqb (fst kv) "random_seed")
                            (parameters (ev_call e))) tr
  = [ [("random_seed", VStr "42")]; [("random_seed", VStr "42")] ]
  /\ VStr "42" = VStr (Py.str (VInt 42)).
Proof.
  intros tr. split; [vm_compute; reflexivity |].
  pose (d := Event "" (Call "" "" None "" []) Sample.w0 true).
  apply (parameters_agree_across_steps Sample.all_ok
           (Sample.config "data_split,train_random_forest") Sample.w0
           (nth 0 tr d) (nth 1 tr d) "random_seed").
  - vm_compute. left. reflexivity.
  - vm_compute. right. left. reflexivity.
  - discriminate.
  - vm_compute. right. right. left. reflexivity.
  - vm_compute. right. right. left. reflexivity.
Defined.

(** ** Reading the request *)

Lemma split_cons sep c s :
  Py.split sep (String c s)
  = if Ascii.eqb c sep then EmptyString :: Py.split sep s
    else match Py.split sep s with
         | [] => [String c EmptyString]
         | piece :: pieces => String c piece :: pieces
         end.
Proof. reflexivity. Qed.

Lemma split_nonempty sep s : Py.split sep s <> [].
Proof.
  induction s as [| c s IH]; [discriminate |]. rewrite split_cons.
  destruct (Ascii.eqb c sep); [discriminate |].
  destruct (Py.split sep s); discriminate.
Qed.

(** X8.  [str.split] as [go] uses it: the request is cut at every comma
    and nowhere else.  There is always at least one piece, no piece
    contains a comma, nothing is trimmed or dropped (putting the commas
    back between the pieces gives the request again), and a request with
    [n] commas has [n + 1] pieces. *)
Theorem split_cuts_at_commas :
  forall s,
    Py.split "," s <> []
    /\ String.concat "," (Py.split "," s) = s
    /\ Forall (fun piece => ~ In ","%char (list_ascii_of_string piece))
              (Py.split "," s)
    /\ length (Py.split "," s)
       = S (count_occ ascii_dec (list_ascii_of_string s) ","%char).
Proof.
  intros s. split; [apply split_nonempty |].
  induction s as [| c s (IHc & IHf & IHl)].
  - repeat split. constructor; [cbn; tauto | constructor].
  - pose proof (split_nonempty "," s) as Hne.
    rewrite split_cons. destruct (Ascii.eqb_spec c ",") as [-> | Hc].
    + split; [| split].
      * cbn [String.concat]. destruct (Py.split "," s) as [| p ps] eqn:E;
          [contradiction |]. rewrite IHc. reflexivity.
      * constructor; [cbn; tauto | exact IHf].
      * cbn [length list_ascii_of_string]. rewrite IHl.
        now rewrite count_occ_cons_eq.
    + destruct (Py.split "," s) as [| p ps] eqn:E; [contradiction |].
      split; [| split].
      * rewrite <- IHc. cbn [String.concat]. destruct ps; reflexivity.
      * apply Forall_cons in IHf. destruct IHf as [Hp Hps].
        constructor; [| exact Hps].
        cbn [list_ascii_of_string In]. intros [H | H]; [congruence | tauto].
      * cbn [length list_ascii_of_string] in *. rewrite IHl.
        now rewrite count_occ_cons_neq by congruence.
Qed.

(** X9.  Names are matched exactly.  For a request other than ["all"], a
    step runs only if its name is, character for character, one of the
    comma-separated pieces of the request; and when [go] returns normally,
    every step whose name is such a piece has run. *)
Theorem steps_run_iff_requested :
  forall backend config w,
    steps (main config) <> "all" ->
    (forall name,
        In name (executed backend config w) ->
        In name canonical /\ In name (Py.split "," (steps (main config))))
    /\ (fst (run backend config w) = Ok tt ->
        forall name,
          In name canonical -> In name (Py.split "," (steps (main config))) ->
          In name (executed backend config w)).
Proof.
  intros backend config w Hall.
  assert (forall name,
             In name (selection (steps (main config)))
             <-> In name canonical /\ In name (Py.split "," (steps (main config))))
    as Hsel.
  { intros name. unfold selection, guarded, active_steps_of.
    apply String.eqb_neq in Hall. rewrite Hall. cbn [negb].
    rewrite filter_In, mem_spec. reflexivity. }
  destruct (executed_selection backend config w) as (rest & Heq & Hok).
  split.
  - intros name Hin. apply Hsel. rewrite Heq. apply in_or_app. now left.
  - intros Hres name Hc Ht. rewrite (Hok Hres), app_nil_r in Heq.
    rewrite <- Heq. apply Hsel. tauto.
Qed.

Lemma steps_run_iff_requested_witness :
  In "download"
     (executed Sample.all_ok (Sample.config "download, basic_cleaning") Sample.w0)
  /\ ~ In "basic_cleaning"
       (executed Sample.all_ok (Sample.config "download, basic_cleaning") Sample.w0).
Proof.
  pose proof (steps_run_iff_requested Sample.all_ok
                (Sample.config "download, basic_cleaning") Sample.w0)
    as [Honly Hall]; [discriminate |].
  split.
  - apply Hall; [vm_compute; reflexivity | cbn; tauto | cbn; tauto].
  - intros Hin. apply Honly in Hin. destruct Hin as [_ Hin].
    cbn in Hin. intuition discriminate.
Defined.

(** X10.  A request that is exactly one step name runs exactly that step:
    the step is invoked whatever happens, and no other is. *)
Theorem single_step_request :
  forall backend config w,
    In (steps (main config)) canonical ->
    executed backend config w = [steps (main config)].
Proof.
  intros backend config w Hin. apply executed_single.
  unfold canonical, _steps in Hin. cbn [app In] in Hin.
  repeat (destruct Hin as [<- | Hin]); try contradiction; reflexivity.
Qed.

Lemma single_step_request_witness :
  executed (Sample.fail_at "/work/src/train_random_forest")
           (Sample.config "train_random_forest") Sample.w0
  = ["train_random_forest"].
Proof.
  apply (single_step_request (Sample.fail_at "/work/src/train_random_forest")
           (Sample.config "train_random_forest") Sample.w0).
  cbn. tauto.
Defined.

(** ** The dictionary behind the side file *)

Lemma dict_snoc l k v : Py.dict (l ++ [(k, v)]) = Py.dict_set k v (Py.dict l).
Proof. unfold Py.dict. now rewrite fold_left_app. Qed.

Lemma dict_set_keys k v d :
  map fst (Py.dict_set k v d)
  = if Py.mem k (map fst d) then map fst d else map fst d ++ [k].
Proof.
  induction d as [| [k' v'] d IH]; [reflexivity |].
  cbn [Py.dict_set map fst Py.mem existsb].
  destruct (String.eqb_spec k k') as [-> | Hne]; [reflexivity |].
  cbn [map fst orb]. rewrite IH. unfold Py.mem.
  now destruct (existsb (String.eqb k) (map fst d)).
Qed.

Lemma dict_set_In k v d k' v' :
  NoDup (map fst d) ->
  In (k', v') (Py.dict_set k v d)
  <-> (k' = k /\ v' = v) \/ (k' <> k /\ In (k', v') d).
Proof.
  induction d as [| [k0 v0] d IH]; intros Hnd.
  - cbn. split.
    + intros [[= <- <-] | []]. now left.
    + intros [[-> ->] | [_ []]]. now left.
  - cbn [map fst] in Hnd. apply NoDup_cons in Hnd. destruct Hnd as [Hk0 Hnd].
    cbn [Py.dict_set]. destruct (String.eqb_spec k k0) as [-> | Hne]; cbn [In].
    + split.
      * intros [[= <- <-] | Hin]; [now left |]. right. split; [| now right].
        intros ->. apply Hk0. apply list_elem_of_In.
        change k0 with (fst (k0, v')). now apply in_map.
      * intros [[-> ->] | [Hne [[= <- <-] | Hin]]];
          [now left | now contradiction Hne | now right].
    + rewrite (IH Hnd). split.
      * intros [[= <- <-] | [[-> ->] | [Hk Hin]]].
        -- right. split; [congruence | now left].
        -- now left.
        -- right. split; [exact Hk | now right].
      * intros [[-> ->] | [Hk [[= <- <-] | Hin]]].
        -- right. now left.
        -- now left.
        -- right. right. split; assumption.
Qed.

Lemma dict_set_NoDup k v d :
  NoDup (map fst d) -> NoDup (map fst (Py.dict_set k v d)).
Proof.
  intros Hnd. rewrite dict_set_keys.
  destruct (Py.mem k (map fst d)) eqn:E; [exact Hnd |].
  apply NoDup_app. split; [exact Hnd |]. split.
  - intros x Hx Hk. apply list_elem_of_In in Hx, Hk. destruct Hk as [<- | []].
    apply mem_spec in Hx. congruence.
  - apply NoDup_singleton.
Qed.

Lemma dict_NoDup l : NoDup (map fst (Py.dict l)).
Proof.
  induction l as [| [k v] l IH] using rev_ind; [apply NoDup_nil_2 |].
  rewrite dict_snoc. now apply dict_set_NoDup.
Qed.

(** X12.  [dict(items)], from which the side file is written, is a proper
    dictionary whatever the items: its keys are distinct; a key is bound
    to the value of its last occurrence among the items; and building a
    dictionary from it again changes nothing. *)
Theorem dict_keeps_the_last_binding :
  forall items,
    NoDup (map fst (Py.dict items))
    /\ (forall k v,
          In (k, v) (Py.dict items)
          <-> exists before after,
                items = before ++ (k, v) :: after /\ ~ In k (map fst after))
    /\ Py.dict (Py.dict items) = Py.dict items.
Proof.
  intros items. split; [apply dict_NoDup |].
  split; [| apply dict_distinct, dict_NoDup].
  induction items as [| [k0 v0] items IH] using rev_ind; intros k v.
  - cbn. split; [tauto |]. intros ([| ? ?] & after & H & _); discriminate H.
  - rewrite dict_snoc, dict_set_In by apply dict_NoDup. rewrite IH. split.
    + intros [[-> ->] | [Hne (before & after & -> & Hnot)]].
      * exists items, []. split; [reflexivity | cbn; tauto].
      * exists before, (after ++ [(k0, v0)]). split; [now rewrite <- app_assoc |].
        rewrite map_app, in_app_iff. cbn. intuition.
    + intros (before & after & Heq & Hnot).
      destruct after as [| a after _] using rev_ind.
      * apply app_inj_tail in Heq. destruct Heq as [_ [= -> ->]]. now left.
      * right. change (before ++ (k, v) :: after ++ [a])
          with (before ++ ((k, v) :: after) ++ [a]) in Heq.
        rewrite app_assoc in Heq. apply app_inj_tail in Heq.
        destruct Heq as [-> Ha]. subst a.
        rewrite map_app, in_app_iff in Hnot. cbn in Hnot.
        split; [intuition |]. exists before, after. split; [reflexivity | tauto].
Qed.

(** X13.  The side file determines the hyperparameters: two dictionaries
    (distinct keys, floats finite) that are written as the same text are
    the same dictionary, keys, values and order. *)
Theorem dumps_is_injective :
  forall d d',
    NoDup (map fst d) -> NoDup (map fst d') ->
    Forall (fun kv => Json.is_json_value (snd kv) = true) d ->
    Forall (fun kv => Json.is_json_value (snd kv) = true) d' ->
    Json.dumps d = Json.dumps d' ->
    d = d'.
Proof.
  intros d d' Hnd Hnd' Hwf Hwf' Heq.
  pose proof (loads_dumps d Hnd Hwf) as H.
  rewrite Heq, (loads_dumps d' Hnd' Hwf') in H. now injection H.
Qed.

Lemma dumps_is_injective_witness :
  random_forest (modeling (Sample.config "all"))
  = random_forest (modeling (Sample.config "download")).
Proof.
  apply dumps_is_injective.
  - cbn. repeat (apply NoDup_cons_2;
                 [rewrite ?elem_of_cons, elem_of_nil; intuition discriminate |]).
    apply NoDup_nil_2.
  - cbn. repeat (apply NoDup_cons_2;
                 [rewrite ?elem_of_cons, elem_of_nil; intuition discriminate |]).
    apply NoDup_nil_2.
  - repeat (constructor; [reflexivity |]). constructor.
  - repeat (constructor; [reflexivity |]). constructor.
  - reflexivity.
Defined.

(** ** The text of the side file *)

Lemma printable_append s t : printable (s +:+ t) = printable s && printable t.
Proof.
  induction s as [| c s IH]; [reflexivity |].
  rewrite append_cons. cbn [printable]. now rewrite IH, andb_assoc.
Qed.

Lemma printable_escape c : printable (Json.escape c) = true.
Proof. destruct c as [[] [] [] [] [] [] [] []]; reflexivity. Qed.

Lemma printable_encode_string s : printable (Json.encode_string s) = true.
Proof.
  unfold Json.encode_string. cbn [printable]. rewrite printable_append.
  replace (printable (Json.escape_all s)) with true; [reflexivity |].
  induction s as [| c s IH]; [reflexivity |].
  cbn [Json.escape_all]. now rewrite printable_append, printable_escape, <- IH.
Qed.

Lemma printable_digit c : Json.is_digit c = true -> printable_char c = true.
Proof.
  unfold Json.is_digit, printable_char. intros H.
  apply andb_true_iff in H. destruct H as [H1 H2].
  apply N.leb_le in H1, H2. apply andb_true_iff. split; apply N.leb_le; lia.
Qed.

Lemma printable_take_digits s :
  printable (fst (Json.take_digits s)) = true.
Proof.
  induction s as [| c s IH]; [reflexivity |]. cbn [Json.take_digits].
  destruct (Json.is_digit c) eqn:E; [| reflexivity].
  destruct (Json.take_digits s) as [ds r]. cbn [fst printable] in *.
  now rewrite (printable_digit c E), IH.
Qed.

Lemma printable_uint d : printable (NilEmpty.string_of_uint d) = true.
Proof.
  rewrite <- (printable_take_digits (NilEmpty.string_of_uint d)).
  now rewrite take_digits_uint.
Qed.

Lemma printable_str_of_Z z : printable (Py.str_of_Z z) = true.
Proof.
  destruct z as [| p | p]; [reflexivity | |]; unfold Py.str_of_Z;
    cbn [Z.to_int NilEmpty.string_of_int printable]; now rewrite printable_uint.
Qed.

(** The text of a number literal is printable. *)
Lemma printable_scan_number s r rest :
  Json.scan_number s = Some (VFloat r, rest) -> printable r = true.
Proof.
  unfold Json.scan_number.
  assert (printable (fst (Json.opt_minus s)) = true) as Hsg.
  { destruct s as [| c s]; [reflexivity |]. cbn [Json.opt_minus].
    now destruct (Ascii.eqb c "-"). }
  destruct (Json.opt_minus s) as [sg s1]. cbn [fst] in Hsg.
  assert (forall ip s2, Json.int_part s1 = Some (ip, s2) -> printable ip = true)
    as Hip.
  { intros ip s2. destruct s1 as [| c s1]; [discriminate |]. cbn [Json.int_part].
    destruct (Ascii.eqb c "0"); [now intros [= <- _] |].
    destruct (Json.is_digit c) eqn:E; [| discriminate].
    pose proof (printable_take_digits s1) as Hd.
    destruct (Json.take_digits s1) as [ds r']. intros [= <- _].
    cbn [printable fst] in *. now rewrite (printable_digit c E), Hd. }
  destruct (Json.int_part s1) as [[ip s2] |]; [| discriminate].
  specialize (Hip ip s2 eq_refl).
  assert (printable (fst (Json.frac_part s2)) = true) as Hfp.
  { destruct s2 as [| c s2]; [reflexivity |]. cbn [Json.frac_part].
    destruct (Ascii.eqb_spec c ".") as [-> | _]; [| reflexivity].
    pose proof (printable_take_digits s2) as Hd.
    destruct (Json.take_digits s2) as [[| d ds] r']; [reflexivity |].
    cbn [fst printable] in *. exact Hd. }
  destruct (Json.frac_part s2) as [fp s3]. cbn [fst] in Hfp.
  assert (printable (fst (Json.exp_part s3)) = true) as Hep.
  { destruct s3 as [| c s3]; [reflexivity |]. cbn [Json.exp_part].
    destruct (Ascii.eqb c "e" || Ascii.eqb c "E") eqn:Ee; [| reflexivity].
    assert (printable_char c = true) as Hc.
    { apply orb_true_iff in Ee.
      destruct Ee as [Ee | Ee]; apply Ascii.eqb_eq in Ee; now subst. }
    assert (printable (fst (Json.opt_sign s3)) = true) as Hs.
    { destruct s3 as [| a s3]; [reflexivity |]. cbn [Json.opt_sign].
      destruct (Ascii.eqb a "+" || Ascii.eqb a "-") eqn:Ea; [| reflexivity].
      cbn [fst printable]. apply orb_true_iff in Ea.
      destruct Ea as [Ea | Ea]; apply Ascii.eqb_eq in Ea; now subst. }
    destruct (Json.opt_sign s3) as [sg' r1]. cbn [fst] in Hs.
    pose proof (printable_take_digits r1) as Hd.
    destruct (Json.take_digits r1) as [[| d ds] r']; [reflexivity |].
    cbn [fst] in Hd. cbn [fst printable]. now rewrite Hc, printable_append, Hs, Hd. }
  destruct (Json.exp_part s3) as [ep s4]. cbn [fst] in Hep.
  destruct fp as [| f fp]; [destruct ep as [| e ep] |].
  - destruct (Json.parse_int (sg +:+ ip)); discriminate.
  - intros [= <- _]. now rewrite !printable_append, Hsg, Hip, Hep.
  - intros [= <- _]. now rewrite !printable_append, Hsg, Hip, Hfp, Hep.
Qed.

Lemma printable_encode_value v :
  Json.is_json_value v = true -> printable (Json.encode_value v) = true.
Proof.
  destruct v as [| [] | z | r | t]; intros Hv; try reflexivity.
  - apply printable_str_of_Z.
  - destruct (json_float_number r Hv) as [Hn He]. cbn [Json.encode_value].
    rewrite He. exact (printable_scan_number _ _ _ Hn).
  - apply printable_encode_string.
Qed.

(** X14.  Whatever characters the keys and the string values of the
    hyperparameters contain, the side file is one line of printable ASCII:
    every character of the written text lies between the space and the
    tilde (the floats being finite). *)
Theorem dumps_is_printable_ascii :
  forall d,
    Forall (fun kv => Json.is_json_value (snd kv) = true) d ->
    printable (Json.dumps d) = true.
Proof.
  intros d Hwf. unfold Json.dumps.
  rewrite append_cons, append_nil_l. cbn [printable]. rewrite printable_append.
  replace (printable (Json.encode_items d)) with true; [reflexivity |].
  symmetry. induction Hwf as [| [k v] d Hv _ IH]; [reflexivity |].
  assert (printable (Json.encode_item (k, v)) = true) as Hitem.
  { unfold Json.encode_item. cbn [fst snd].
    rewrite !printable_append, printable_encode_string.
    now rewrite (printable_encode_value v Hv). }
  destruct d as [| kv' d]; cbn [Json.encode_items]; [exact Hitem |].
  rewrite !printable_append, Hitem. cbn [Json.encode_items] in IH.
  now rewrite IH.
Qed.

Lemma dumps_is_printable_ascii_witness :
  printable (Json.dumps [ (String "233"%char "t" , VStr (String "010"%char "x"));
                          ("max_features", VFloat "0.5") ]) = true.
Proof.
  apply dumps_is_printable_ascii.
  repeat (constructor; [reflexivity |]). constructor.
Defined.

(** ** Paths handed to the steps *)

Lemma path_join_prefix a b : String.prefix a (Py.path_join a b) = true.
Proof.
  unfold Py.path_join. destruct (String.eqb_spec a "") as [-> | _].
  - now destruct b.
  - destruct (Py.ends_with_slash a); apply prefix_append.
Qed.

Lemma prefix_slash a x :
  String.prefix "/" a = true -> String.prefix a x = true ->
  String.prefix "/" x = true.
Proof.
  intros Ha Hx. destruct a as [| c a]; [discriminate Ha |].
  destruct x as [| d x]; [discriminate Hx |]. cbn [String.prefix] in *.
  destruct (ascii_dec "/" c) as [<- | _]; [| discriminate Ha].
  destruct (ascii_dec "/" d) as [_ | _]; [now destruct x | discriminate Hx].
Qed.

(** X15.  The paths [go] hands to the steps are absolute whenever the
    process directories are.  With an absolute working directory, the
    [rf_config] parameter of the training step is an absolute path inside
    the working directory, and the file is there when the step is called;
    with an absolute launch directory, every local step is addressed by an
    absolute path. *)
Theorem paths_are_absolute :
  forall backend config w,
    (String.prefix "/" (cwd w) = true ->
     Forall (fun e =>
               ev_step e = "train_random_forest" ->
               exists path,
                 In ("rf_config", VStr path) (parameters (ev_call e))
                 /\ String.prefix "/" path = true
                 /\ String.prefix (cwd w) path = true
                 /\ files (ev_world e) !! path <> None)
            (st_trace (snd (run backend config w))))
    /\ (String.prefix "/" (original_cwd w) = true ->
        Forall (fun e =>
                  env_manager (ev_call e) = "local" ->
                  String.prefix "/" (uri (ev_call e)) = true)
               (st_trace (snd (run backend config w)))).
Proof.
  intros backend config w. split; intros Habs.
  - pose proof (rf_config_at_call backend config w) as H.
    rewrite List.Forall_forall in *. intros e He Hname.
    destruct (H e He Hname) as [Hfile Hparam].
    exists (rf_config_file w). split; [exact Hparam |].
    assert (String.prefix (cwd w) (rf_config_file w) = true) as Hin
      by apply path_join_prefix.
    split; [now apply (prefix_slash (cwd w)) |].
    split; [exact Hin | now rewrite Hfile].
  - pose proof (calls_of_blocks backend config w) as H.
    rewrite List.Forall_forall in *. intros e He.
    destruct (H e He) as (b & Hin & _ & ->). clear H He.
    unfold blocks in Hin. cbn [In] in Hin.
    repeat (destruct Hin as [<- | Hin]); try contradiction;
      cbn [b_call env_manager uri download_block basic_cleaning_block
           data_check_block data_split_block train_random_forest_block
           test_regression_model_block];
      try discriminate; intros _; unfold local_uri;
      (apply (prefix_slash (Py.path_join (original_cwd w) "src"));
       [| apply path_join_prefix]);
      (apply (prefix_slash (original_cwd w));
       [exact Habs | apply path_join_prefix]).
Qed.

Lemma paths_are_absolute_witness :
  let tr := st_trace (snd (run Sample.all_ok (Sample.config "all") Sample.w0)) in
  Forall (fun e =>
            ev_step e = "train_random_forest" ->
            exists path,
              In ("rf_config", VStr path) (parameters (ev_call e))
              /\ String.prefix "/" path = true
              /\ String.prefix "/work/outputs" path = true
              /\ files (ev_world e) !! path <> None) tr
  /\ Forall (fun e =>
               env_manager (ev_call e) = "local" ->
               String.prefix "/" (uri (ev_call e)) = true) tr.
Proof.
  pose proof (paths_are_absolute Sample.all_ok (Sample.config "all") Sample.w0)
    as [Hrf Huri].
  split; [apply Hrf | apply Huri]; reflexivity.
Defined.

(** ** When the side file appears *)

Section SideFileTiming.

Variable backend : call -> world -> bool * (gset string * gmap string string).

(** X16.  The side file is written late: as long as the external steps
    leave [rf_config.json] alone, the four steps before training find at
    that path what was there before [go] started, and when one of them
    fails, [go] ends without having touched it. *)
Theorem side_file_is_written_late :
  forall config w,
    (forall c w',
        snd (snd (backend c w')) !! rf_config_file w = files w' !! rf_config_file w) ->
    Forall (fun e =>
              ev_step e <> "train_random_forest" ->
              ev_step e <> "test_regression_model" ->
              files (ev_world e) !! rf_config_file w = files w !! rf_config_file w)
           (st_trace (snd (run backend config w)))
    /\ (forall s,
          fst (run backend config w) = Raise (StepExecutionError s) ->
          s <> "train_random_forest" -> s <> "test_regression_model" ->
          is_under (mkdtemp_name w) (rf_config_file w) = false ->
          files (st_world (snd (run backend config w))) !! rf_config_file w
          = files w !! rf_config_file w).
Proof.
  intros config w Hkeep.
  destruct (run_steps_from backend config w) as (r & evs & w' & Heq & Hsteps).
  rewrite Heq. cbn [fst snd st_trace st_world].
  change (blocks config)
    with ([download_block config; basic_cleaning_block config;
           data_check_block config; data_split_block config]
          ++ [train_random_forest_block config; test_regression_model_block config])
    in Hsteps.
  apply steps_from_app in Hsteps.
  destruct Hsteps as (evs1 & r1 & w1 & H1 & Hrest).
  assert (Forall (fun e => files (ev_world e) !! rf_config_file w
                           = files w !! rf_config_file w) evs1
          /\ files w1 !! rf_config_file w = files w !! rf_config_file w
             /\ cwd w1 = cwd w) as (Hevs1 & Hw1 & _).
  { apply (steps_from_invariant backend
             (fun w1 => files w1 !! rf_config_file w = files w !! rf_config_file w
                        /\ cwd w1 = cwd w)
             (fun e => files (ev_world e) !! rf_config_file w
                       = files w !! rf_config_file w)) in H1.
    - exact H1.
    - intros b w2 ok df Hin [Hf Hc] Hb. cbn [ev_world].
      assert (In b (blocks config)) as Hin'
        by (unfold blocks; cbn [In] in *; tauto).
      assert (b_name b <> "train_random_forest") as Hname
        by (cbn [In] in Hin;
            repeat (destruct Hin as [<- | Hin]); try contradiction; discriminate).
      assert (files (call_world b w2) !! rf_config_file w
              = files w !! rf_config_file w) as Hcall.
      { rewrite (blocks_files_frame config b w2 _ Hin'); [exact Hf | now right]. }
      split; [exact Hcall |].
      destruct (blocks_frame config b w2 df Hin')
        as (_ & Hc1 & _ & _ & _ & _ & Hc2 & _ & _ & _ & Hf2 & _).
      rewrite Hf2, Hc2. split; [| exact Hc].
      specialize (Hkeep (b_call b w2) (call_world b w2)).
      rewrite Hb in Hkeep. cbn [snd] in Hkeep. now rewrite Hkeep.
    - split; reflexivity. }
  destruct r1 as [u | err].
  - destruct Hrest as (evs2 & -> & H2). split.
    + apply Forall_app. split.
      * eapply Forall_impl; [exact Hevs1 |]. cbn. auto.
      * apply steps_from_steps in H2. eapply Forall_impl; [exact H2 |].
        cbn. intros e [He | [He | []]] Hn1 Hn2; congruence.
    + intros s -> Hn1 Hn2 _. exfalso.
      pose proof (steps_from_failure backend _ _ _ _ _ _ H2)
        as (evs0 & e & -> & _ & _ & [= ->]).
      apply steps_from_steps in H2. apply Forall_app in H2.
      destruct H2 as [_ H2]. apply Forall_cons in H2. destruct H2 as [H2 _].
      cbn in H2. intuition congruence.
  - destruct Hrest as (-> & -> & ->). split.
    + eapply Forall_impl; [exact Hevs1 |]. cbn. auto.
    + intros s _ _ _ Hu. now rewrite rmtree_files_keep.
Qed.

End SideFileTiming.

Lemma side_file_is_written_late_witness :
  files (st_world (snd (run (Sample.fail_at "/work/src/data_check")
                          (Sample.config "all") Sample.w0)))
    !! "/work/outputs/rf_config.json" = None.
Proof.
  refine (proj2 (side_file_is_written_late (Sample.fail_at "/work/src/data_check")
                   (Sample.config "all") Sample.w0 _) "data_check" _ _ _ _).
  - intros c w'. reflexivity.
  - vm_compute. reflexivity.
  - discriminate.
  - discriminate.
  - reflexivity.
Defined.
